(** * forge-sdk-go: request builder, payload finalisation and outcome
      classification

    A shallow embedding of [forge.go], [types.go] and [error.go].

    - Go strings are byte sequences: [string] (a list of 8-bit [ascii]).
    - [*T] fields of [RenderRequest] are [option T]: [None] is the nil
      pointer, [Some v] a pointer to [v].
    - [map[string]any] is a [gmap string value]; the dynamic values stored
      in it are the constructors of [value].
    - A method with a pointer receiver that mutates and returns the
      receiver is a function from the old state to the new one.
    - The pointers [r.client] and [c.httpClient] are taken to be non-nil,
      as they are in every request obtained from [RenderHTML]/[RenderURL]
      on a client obtained from [NewClient]. *)

From Stdlib Require Import ZArith String Ascii List Bool Lia.
From Stdlib Require Import DecimalString.
From Stdlib Require Floats.SpecFloat.
From Equations Require Import Equations.
From stdpp Require Import gmap strings list fin_maps.

Set Warnings "-register-all,-postfix-notation-not-level-1".

#[local] Open Scope string_scope.

(** ** types.go *)

(** Every enumeration of [types.go] is a named string type: any string
    converts to it, the constants are just the documented values. *)
Module types.

Definition OutputFormat : Type := string.
Definition FormatPDF : OutputFormat := "pdf".
Definition FormatPNG : OutputFormat := "png".
Definition FormatJPEG : OutputFormat := "jpeg".
Definition FormatBMP : OutputFormat := "bmp".
Definition FormatTGA : OutputFormat := "tga".
Definition FormatQOI : OutputFormat := "qoi".
Definition FormatSVG : OutputFormat := "svg".

Definition Orientation : Type := string.
Definition Portrait : Orientation := "portrait".
Definition Landscape : Orientation := "landscape".

Definition Flow : Type := string.
Definition FlowAuto : Flow := "auto".
Definition FlowPaginate : Flow := "paginate".
Definition FlowContinuous : Flow := "continuous".

Definition DitherMethod : Type := string.
Definition DitherNone : DitherMethod := "none".
Definition DitherFloydSteinberg : DitherMethod := "floyd-steinberg".
Definition DitherAtkinson : DitherMethod := "atkinson".
Definition DitherOrdered : DitherMethod := "ordered".

Definition WatermarkLayer : Type := string.
Definition WatermarkOver : WatermarkLayer := "over".
Definition WatermarkUnder : WatermarkLayer := "under".

Definition PdfStandard : Type := string.
Definition PdfStandardNone : PdfStandard := "none".
Definition PdfStandardA2B : PdfStandard := "pdf/a-2b".
Definition PdfStandardA3B : PdfStandard := "pdf/a-3b".

Definition EmbedRelationship : Type := string.
Definition EmbedRelationshipAlternative : EmbedRelationship := "alternative".
Definition EmbedRelationshipSupplement : EmbedRelationship := "supplement".
Definition EmbedRelationshipData : EmbedRelationship := "data".
Definition EmbedRelationshipSource : EmbedRelationship := "source".
Definition EmbedRelationshipUnspecified : EmbedRelationship := "unspecified".

Definition BarcodeType : Type := string.
Definition BarcodeQR : BarcodeType := "qr".
Definition BarcodeCode128 : BarcodeType := "code128".
Definition BarcodeEAN13 : BarcodeType := "ean13".
Definition BarcodeUPCA : BarcodeType := "upca".
Definition BarcodeCode39 : BarcodeType := "code39".

Definition BarcodeAnchor : Type := string.
Definition AnchorTopLeft : BarcodeAnchor := "top-left".
Definition AnchorTopRight : BarcodeAnchor := "top-right".
Definition AnchorBottomLeft : BarcodeAnchor := "bottom-left".
Definition AnchorBottomRight : BarcodeAnchor := "bottom-right".

Definition PdfMode : Type := string.
Definition PdfModeAuto : PdfMode := "auto".
Definition PdfModeVector : PdfMode := "vector".
Definition PdfModeRaster : PdfMode := "raster".

Definition AccessibilityLevel : Type := string.
Definition AccessibilityNone : AccessibilityLevel := "none".
Definition AccessibilityBasic : AccessibilityLevel := "basic".
Definition AccessibilityPdfUa1 : AccessibilityLevel := "pdf/ua-1".

Definition Palette : Type := string.
Definition PaletteAuto : Palette := "auto".
Definition PaletteBlackWhite : Palette := "bw".
Definition PaletteGrayscale : Palette := "grayscale".
Definition PaletteEink : Palette := "eink".

End types.

(** [float64] values are only carried from a setter to the payload; they
    are never computed with nor compared. *)
Definition float64 : Type := SpecFloat.spec_float.

(** [EmbeddedFile]: the optional members are plain strings, empty when
    not given. *)
Module EmbeddedFile.
Record t : Type := mk {
  Path : string;
  Data : string;   (* base64-encoded *)
  MimeType : string;
  Description : string;
  Relationship : types.EmbedRelationship
}.
End EmbeddedFile.

(** [BarcodeConfig]: the optional members are pointers. *)
Module BarcodeConfig.
Record t : Type := mk {
  Type_ : types.BarcodeType;
  Data : string;
  X : option float64;
  Y : option float64;
  Width : option float64;
  Height : option float64;
  Anchor : option types.BarcodeAnchor;
  Foreground : option string;
  Background : option string;
  DrawBg : option bool;
  Pages : option string
}.
End BarcodeConfig.

(** ** Dynamic values ([any]) held by a payload *)

Inductive value : Type :=
| VString (s : string)
| VInt (n : Z)
| VFloat (f : float64)
| VBool (b : bool)
| VStrings (l : list string)                 (* []string *)
| VObject (m : gmap string value)            (* map[string]any *)
| VObjects (l : list (gmap string value)).   (* []map[string]interface{} *)

(** ** error.go *)

Inductive error : Type :=
| ServerError (StatusCode : Z) (Message : string)
| ConnectionError (Cause : error)
| Errorf_w (context : string) (err : error)   (* fmt.Errorf("<context>: %w", err) *)
| ForeignError (text : string).                (* an error value of another package *)

(** [strconv.Itoa]/[%d]: decimal digits, with a leading minus sign. *)
Definition itoa (n : Z) : string := NilZero.string_of_int (Z.to_int n).

Fixpoint Error (e : error) : string :=
  match e with
  | ServerError code msg =>
      "forge: server error (" ++ itoa code ++ "): " ++ msg
  | ConnectionError cause => "forge: connection error: " ++ Error cause
  | Errorf_w context err => context ++ ": " ++ Error err
  | ForeignError text => text
  end.

Definition Unwrap (e : error) : option error :=
  match e with
  | ConnectionError cause => Some cause
  | Errorf_w _ err => Some err
  | _ => None
  end.

Definition is_ServerError (e : error) : bool :=
  match e with ServerError _ _ => true | _ => false end.

Definition is_ConnectionError (e : error) : bool :=
  match e with ConnectionError _ => true | _ => false end.

(** A Go [(T, error)] result in which exactly one side is meaningful. *)
Inductive result (A : Type) : Type :=
| Ok (a : A)
| Err (e : error).
Arguments Ok {A} a.
Arguments Err {A} e.

(** ** The parts of Go's standard library the client calls *)

Module http.

Definition Header : Type := gmap string (list string).

(** [Header.Set]: replaces the values of the key by the single value. *)
Definition Header_Set (key val : string) (h : Header) : Header :=
  <[key := [val]]> h.

Record Request (Ctx : Type) : Type := mkRequest {
  ctx : Ctx;
  Method : string;
  URL : string;
  Hdr : Header;
  ReqBody : option (list Byte.byte)
}.
Arguments mkRequest {Ctx} _ _ _ _ _.
Arguments ctx {Ctx} _.
Arguments Method {Ctx} _.
Arguments URL {Ctx} _.
Arguments Hdr {Ctx} _.
Arguments ReqBody {Ctx} _.

(** A response body is a stream: it delivers [delivered] and then ends,
    either at end of file or with a read failure. *)
Record Reader : Type := mkReader {
  delivered : list Byte.byte;
  failure : option error
}.

Record Response : Type := mkResponse {
  StatusCode : Z;
  Body : Reader
}.

Definition StatusOK : Z := 200.
Definition MethodGet : string := "GET".
Definition MethodPost : string := "POST".

(** [http.RoundTripper], an interface with the one method [RoundTrip]. *)
Definition RoundTripper (Ctx : Type) : Type :=
  Request Ctx -> result Response.

(** [http.Client]: the fields the SDK sets; a nil [Transport] stands
    for the default one. *)
Record Client (Ctx : Type) : Type := mkClient {
  Transport : option (RoundTripper Ctx);
  Timeout : Z   (* time.Duration, in nanoseconds *)
}.
Arguments mkClient {Ctx} _ _.
Arguments Transport {Ctx} _.
Arguments Timeout {Ctx} _.

End http.

(** [io.ReadAll]: the bytes read so far and the failure, if any. *)
Definition io_ReadAll (b : http.Reader) : list Byte.byte * option error :=
  (http.delivered b, http.failure b).

Definition time_Second : Z := 1000000000.

(** What the standard library decides and the SDK only consumes: whether
    a payload can be encoded, whether a request can be built, what an
    exchange yields, and what decoding a body into
    a struct with the one member [Error] (JSON name [error]) yields. *)
Class GoRuntime : Type := {
  context_Context : Type;
  json_Marshal : gmap string value -> result (list Byte.byte);
  (** the failure of [http.NewRequestWithContext ctx method url], if any *)
  http_NewRequest_failure : context_Context -> string -> string -> option error;
  (** the method [Do] of [http.Client] *)
  http_Client_Do :
    http.Client context_Context -> http.Request context_Context ->
    result http.Response;
  (** [json.Unmarshal data &errResp]: a failure, or the [Error] member
      after a successful decoding (empty when the body has none) *)
  json_Unmarshal_errResp : list Byte.byte -> result string
}.

Definition http_NewRequestWithContext `{GoRuntime}
    (ctx : context_Context) (method url : string)
    (body : option (list Byte.byte)) : result (http.Request context_Context) :=
  match http_NewRequest_failure ctx method url with
  | Some err => Err err
  | None => Ok (http.mkRequest ctx method url ∅ body)
  end.

Definition Request_Header_Set `{GoRuntime} (key val : string)
    (req : http.Request context_Context) : http.Request context_Context :=
  http.mkRequest (http.ctx req) (http.Method req) (http.URL req)
                 (http.Header_Set key val (http.Hdr req)) (http.ReqBody req).

(** ** forge.go *)

(** The loop at the head of [NewClient]:
    [for len(baseURL) > 0 && baseURL[len(baseURL)-1] == '/'
       { baseURL = baseURL[:len(baseURL)-1] }]. *)
Definition has_trailing_slash (baseURL : string) : bool :=
  (0 <? String.length baseURL)%nat &&
  bool_decide (String.get (String.length baseURL - 1) baseURL = Some "/"%char).

Definition inspect {A : Type} (a : A) : {b : A | a = b} := exist _ a eq_refl.

Equations? strip_trailing_slashes (baseURL : string) : string
    by wf (String.length baseURL) lt :=
  strip_trailing_slashes baseURL with inspect (has_trailing_slash baseURL) := {
    | exist _ true Hcond =>
        strip_trailing_slashes
          (String.substring 0 (String.length baseURL - 1) baseURL)
    | exist _ false _ => baseURL }.
Proof.
  unfold has_trailing_slash in Hcond.
  apply andb_prop in Hcond as [Hlen _]. apply Nat.ltb_lt in Hlen.
  assert (Hsub : forall (s : string) (n : nat),
             String.length (String.substring 0 n s) <= n).
  { intros s. induction s as [|c s IH]; intros [|n]; simpl; auto with arith. }
  specialize (Hsub baseURL (String.length baseURL - 1)). lia.
Qed.

Section Forge.

Context `{rt : GoRuntime}.

(** [Client] communicates with a Forge rendering server. *)
Record Client : Type := mkClient {
  baseURL : string;
  httpClient : http.Client context_Context
}.

(** [Option] configures a [Client]. *)
Definition Option : Type := Client -> Client.

Definition WithTimeout (d : Z) : Option :=
  fun c =>
    mkClient (baseURL c) (http.mkClient (http.Transport (httpClient c)) d).

Definition WithHTTPClient (hc : http.Client context_Context) : Option :=
  fun c => mkClient (baseURL c) hc.

Definition NewClient (baseURL : string) (opts : list Option) : Client :=
  let baseURL := strip_trailing_slashes baseURL in
  let c := mkClient baseURL (http.mkClient None (120 * time_Second)) in
  foldl (fun c o => o c) c opts.

(** [RenderRequest] builds a render request. *)
Record RenderRequest : Type := mkRenderRequest {
  client : Client;
  html : option string;
  url : option string;
  format : string;
  width : option Z;
  height : option Z;
  paper : option string;
  orientation : option string;
  margins : option string;
  flow : option string;
  density : option float64;
  background : option string;
  timeout : option Z;
  colors : option Z;
  palette : option value;   (* [any]: nil, a string or a []string *)
  dither : option string;
  pdfTitle : option string;
  pdfAuthor : option string;
  pdfSubject : option string;
  pdfKeywords : option string;
  pdfCreator : option string;
  pdfBookmarks : option bool;
  pdfPageNumbers : option bool;
  pdfWatermarkText : option string;
  pdfWatermarkImage : option string;   (* base64-encoded *)
  pdfWatermarkOpacity : option float64;
  pdfWatermarkRotation : option float64;
  pdfWatermarkColor : option string;
  pdfWatermarkFontSize : option float64;
  pdfWatermarkScale : option float64;
  pdfWatermarkLayer : option string;
  pdfWatermarkPages : option string;
  pdfStandard : option types.PdfStandard;
  pdfEmbeddedFiles : list EmbeddedFile.t;
  pdfBarcodes : list BarcodeConfig.t;
  pdfMode : option string;
  pdfSignCertificate : option string;
  pdfSignPassword : option string;
  pdfSignName : option string;
  pdfSignReason : option string;
  pdfSignLocation : option string;
  pdfSignTimestampUrl : option string;
  pdfUserPassword : option string;
  pdfOwnerPassword : option string;
  pdfPermissions : option string;
  pdfAccessibility : option string;
  pdfLinearize : option bool
}.

(** Assignment to one field, [r.f = v]: the record rebuilt from its own
    projections with the projection [f] replaced. *)
Ltac assign_field r proj v :=
  let e := constr:(mkRenderRequest
    (client r) (html r) (url r) (format r) (width r) (height r) (paper r)
    (orientation r) (margins r) (flow r) (density r) (background r)
    (timeout r) (colors r) (palette r) (dither r) (pdfTitle r) (pdfAuthor r)
    (pdfSubject r) (pdfKeywords r) (pdfCreator r) (pdfBookmarks r)
    (pdfPageNumbers r) (pdfWatermarkText r) (pdfWatermarkImage r)
    (pdfWatermarkOpacity r) (pdfWatermarkRotation r) (pdfWatermarkColor r)
    (pdfWatermarkFontSize r) (pdfWatermarkScale r) (pdfWatermarkLayer r)
    (pdfWatermarkPages r) (pdfStandard r) (pdfEmbeddedFiles r) (pdfBarcodes r)
    (pdfMode r) (pdfSignCertificate r) (pdfSignPassword r) (pdfSignName r)
    (pdfSignReason r) (pdfSignLocation r) (pdfSignTimestampUrl r)
    (pdfUserPassword r) (pdfOwnerPassword r) (pdfPermissions r)
    (pdfAccessibility r) (pdfLinearize r)) in
  match eval pattern (proj r) in e with
  | ?f _ => let t := eval cbv beta in (f v) in exact t
  end.

#[local] Notation "r '<|' proj ':=' v '|>'" :=
  (ltac:(assign_field r proj v)) (at level 12, only parsing).

(** [RenderHTML] starts a render request from an HTML string: every
    field but [client] and [html] has its zero value. *)
Definition RenderHTML (c : Client) (html' : string) : RenderRequest :=
  {| client := c; html := Some html'; url := None; format := "";
     width := None; height := None; paper := None; orientation := None;
     margins := None; flow := None; density := None; background := None;
     timeout := None; colors := None; palette := None; dither := None;
     pdfTitle := None; pdfAuthor := None; pdfSubject := None;
     pdfKeywords := None; pdfCreator := None; pdfBookmarks := None;
     pdfPageNumbers := None; pdfWatermarkText := None;
     pdfWatermarkImage := None; pdfWatermarkOpacity := None;
     pdfWatermarkRotation := None; pdfWatermarkColor := None;
     pdfWatermarkFontSize := None; pdfWatermarkScale := None;
     pdfWatermarkLayer := None; pdfWatermarkPages := None;
     pdfStandard := None; pdfEmbeddedFiles := []; pdfBarcodes := [];
     pdfMode := None; pdfSignCertificate := None; pdfSignPassword := None;
     pdfSignName := None; pdfSignReason := None; pdfSignLocation := None;
     pdfSignTimestampUrl := None; pdfUserPassword := None;
     pdfOwnerPassword := None; pdfPermissions := None;
     pdfAccessibility := None; pdfLinearize := None |}.

(** [RenderURL] starts a render request from a URL. *)
Definition RenderURL (c : Client) (url' : string) : RenderRequest :=
  {| client := c; html := None; url := Some url'; format := "";
     width := None; height := None; paper := None; orientation := None;
     margins := None; flow := None; density := None; background := None;
     timeout := None; colors := None; palette := None; dither := None;
     pdfTitle := None; pdfAuthor := None; pdfSubject := None;
     pdfKeywords := None; pdfCreator := None; pdfBookmarks := None;
     pdfPageNumbers := None; pdfWatermarkText := None;
     pdfWatermarkImage := None; pdfWatermarkOpacity := None;
     pdfWatermarkRotation := None; pdfWatermarkColor := None;
     pdfWatermarkFontSize := None; pdfWatermarkScale := None;
     pdfWatermarkLayer := None; pdfWatermarkPages := None;
     pdfStandard := None; pdfEmbeddedFiles := []; pdfBarcodes := [];
     pdfMode := None; pdfSignCertificate := None; pdfSignPassword := None;
     pdfSignName := None; pdfSignReason := None; pdfSignLocation := None;
     pdfSignTimestampUrl := None; pdfUserPassword := None;
     pdfOwnerPassword := None; pdfPermissions := None;
     pdfAccessibility := None; pdfLinearize := None |}.

(** *** The setters

    Each one records its argument in its field and hands the request
    back. *)

(** [Format] sets the output format; the field is a plain string, not a
    pointer. *)
Definition Format (f : types.OutputFormat) (r : RenderRequest) : RenderRequest :=
  r <| format := f |>.

(** [Width] sets the viewport width in CSS pixels. *)
Definition Width (px : Z) (r : RenderRequest) : RenderRequest :=
  r <| width := Some px |>.

(** [Height] sets the viewport height in CSS pixels. *)
Definition Height (px : Z) (r : RenderRequest) : RenderRequest :=
  r <| height := Some px |>.

(** [Paper] sets the paper size. *)
Definition Paper (size : string) (r : RenderRequest) : RenderRequest :=
  r <| paper := Some size |>.

(** [Orientation] sets the page orientation. *)
Definition Orientation (o : types.Orientation) (r : RenderRequest) : RenderRequest :=
  r <| orientation := Some o |>.

(** [Margins] sets page margins. *)
Definition Margins (m : string) (r : RenderRequest) : RenderRequest :=
  r <| margins := Some m |>.

(** [Flow] sets the document flow mode. *)
Definition Flow (f : types.Flow) (r : RenderRequest) : RenderRequest :=
  r <| flow := Some f |>.

(** [Density] sets the output DPI. *)
Definition Density (dpi : float64) (r : RenderRequest) : RenderRequest :=
  r <| density := Some dpi |>.

(** [Background] sets the CSS background color. *)
Definition Background (color : string) (r : RenderRequest) : RenderRequest :=
  r <| background := Some color |>.

(** [Timeout] sets the page load timeout in seconds. *)
Definition Timeout (seconds : Z) (r : RenderRequest) : RenderRequest :=
  r <| timeout := Some seconds |>.

(** [Colors] sets the number of colors for quantization. *)
Definition Colors (n : Z) (r : RenderRequest) : RenderRequest :=
  r <| colors := Some n |>.

(** [Palette] sets a built-in palette preset: the slot holds a string. *)
Definition Palette (p : types.Palette) (r : RenderRequest) : RenderRequest :=
  r <| palette := Some (VString p) |>.

(** [CustomPalette] sets a custom palette of hex color strings: the slot holds a []string. *)
Definition CustomPalette (colors_ : list string) (r : RenderRequest) : RenderRequest :=
  r <| palette := Some (VStrings colors_) |>.

(** [Dither] sets the dithering algorithm. *)
Definition Dither (method : types.DitherMethod) (r : RenderRequest) : RenderRequest :=
  r <| dither := Some method |>.

(** [PdfTitle] sets the PDF document title metadata. *)
Definition PdfTitle (title : string) (r : RenderRequest) : RenderRequest :=
  r <| pdfTitle := Some title |>.

(** [PdfAuthor] sets the PDF document author metadata. *)
Definition PdfAuthor (author : string) (r : RenderRequest) : RenderRequest :=
  r <| pdfAuthor := Some author |>.

(** [PdfSubject] sets the PDF document subject metadata. *)
Definition PdfSubject (subject : string) (r : RenderRequest) : RenderRequest :=
  r <| pdfSubject := Some subject |>.

(** [PdfKeywords] sets the PDF document keywords metadata. *)
Definition PdfKeywords (keywords : string) (r : RenderRequest) : RenderRequest :=
  r <| pdfKeywords := Some keywords |>.

(** [PdfCreator] sets the PDF document creator metadata. *)
Definition PdfCreator (creator : string) (r : RenderRequest) : RenderRequest :=
  r <| pdfCreator := Some creator |>.

(** [PdfBookmarks] enables or disables PDF bookmarks from headings. *)
Definition PdfBookmarks (enabled : bool) (r : RenderRequest) : RenderRequest :=
  r <| pdfBookmarks := Some enabled |>.

(** [PdfPageNumbers] enables or disables page-number footers. *)
Definition PdfPageNumbers (enabled : bool) (r : RenderRequest) : RenderRequest :=
  r <| pdfPageNumbers := Some enabled |>.

(** [PdfWatermarkText] sets the watermark text overlay. *)
Definition PdfWatermarkText (text : string) (r : RenderRequest) : RenderRequest :=
  r <| pdfWatermarkText := Some text |>.

(** [PdfWatermarkImage] sets the watermark image. *)
Definition PdfWatermarkImage (base64Data : string) (r : RenderRequest) : RenderRequest :=
  r <| pdfWatermarkImage := Some base64Data |>.

(** [PdfWatermarkOpacity] sets the watermark opacity. *)
Definition PdfWatermarkOpacity (opacity : float64) (r : RenderRequest) : RenderRequest :=
  r <| pdfWatermarkOpacity := Some opacity |>.

(** [PdfWatermarkRotation] sets the watermark rotation in degrees. *)
Definition PdfWatermarkRotation (degrees : float64) (r : RenderRequest) : RenderRequest :=
  r <| pdfWatermarkRotation := Some degrees |>.

(** [PdfWatermarkColor] sets the watermark text color. *)
Definition PdfWatermarkColor (hex : string) (r : RenderRequest) : RenderRequest :=
  r <| pdfWatermarkColor := Some hex |>.

(** [PdfWatermarkFontSize] sets the watermark font size. *)
Definition PdfWatermarkFontSize (size : float64) (r : RenderRequest) : RenderRequest :=
  r <| pdfWatermarkFontSize := Some size |>.

(** [PdfWatermarkScale] sets the watermark image scale. *)
Definition PdfWatermarkScale (scale : float64) (r : RenderRequest) : RenderRequest :=
  r <| pdfWatermarkScale := Some scale |>.

(** [PdfWatermarkLayer] sets the watermark layer position. *)
Definition PdfWatermarkLayer (layer : types.WatermarkLayer) (r : RenderRequest) : RenderRequest :=
  r <| pdfWatermarkLayer := Some layer |>.

(** [PdfStandard] sets the PDF standard compliance level. *)
Definition PdfStandard (standard : types.PdfStandard) (r : RenderRequest) : RenderRequest :=
  r <| pdfStandard := Some standard |>.

(** [PdfAttach] adds an embedded file; the options run in order on the
    new entry before it is appended. *)
Definition PdfAttach (path data : string)
    (opts : list (EmbeddedFile.t -> EmbeddedFile.t)) (r : RenderRequest)
    : RenderRequest :=
  let ef := EmbeddedFile.mk path data "" "" "" in
  let ef := foldl (fun ef opt => opt ef) ef opts in
  r <| pdfEmbeddedFiles := (pdfEmbeddedFiles r ++ [ef])%list |>.

(** [PdfWatermarkPages] sets which pages the watermark applies to. *)
Definition PdfWatermarkPages (pages : string) (r : RenderRequest) : RenderRequest :=
  r <| pdfWatermarkPages := Some pages |>.

(** [PdfBarcode] adds a barcode with the given type and data. *)
Definition PdfBarcode (barcodeType : types.BarcodeType) (data : string)
    (r : RenderRequest) : RenderRequest :=
  r <| pdfBarcodes :=
         (pdfBarcodes r ++
          [BarcodeConfig.mk barcodeType data None None None None None None
                            None None None])%list |>.

(** [PdfBarcodeWith] adds a fully-configured barcode. *)
Definition PdfBarcodeWith (config : BarcodeConfig.t) (r : RenderRequest)
    : RenderRequest :=
  r <| pdfBarcodes := (pdfBarcodes r ++ [config])%list |>.

(** [PdfMode] sets the PDF rendering mode. *)
Definition PdfMode (mode : types.PdfMode) (r : RenderRequest) : RenderRequest :=
  r <| pdfMode := Some mode |>.

(** [PdfSignCertificate] sets the certificate for PDF signing. *)
Definition PdfSignCertificate (data : string) (r : RenderRequest) : RenderRequest :=
  r <| pdfSignCertificate := Some data |>.

(** [PdfSignPassword] sets the password of the certificate. *)
Definition PdfSignPassword (password : string) (r : RenderRequest) : RenderRequest :=
  r <| pdfSignPassword := Some password |>.

(** [PdfSignName] sets the signer name. *)
Definition PdfSignName (name : string) (r : RenderRequest) : RenderRequest :=
  r <| pdfSignName := Some name |>.

(** [PdfSignReason] sets the reason for the signature. *)
Definition PdfSignReason (reason : string) (r : RenderRequest) : RenderRequest :=
  r <| pdfSignReason := Some reason |>.

(** [PdfSignLocation] sets the location for the signature. *)
Definition PdfSignLocation (location : string) (r : RenderRequest) : RenderRequest :=
  r <| pdfSignLocation := Some location |>.

(** [PdfSignTimestampUrl] sets the timestamp server URL. *)
Definition PdfSignTimestampUrl (url_ : string) (r : RenderRequest) : RenderRequest :=
  r <| pdfSignTimestampUrl := Some url_ |>.

(** [PdfUserPassword] sets the user password for PDF encryption. *)
Definition PdfUserPassword (password : string) (r : RenderRequest) : RenderRequest :=
  r <| pdfUserPassword := Some password |>.

(** [PdfOwnerPassword] sets the owner password for PDF encryption. *)
Definition PdfOwnerPassword (password : string) (r : RenderRequest) : RenderRequest :=
  r <| pdfOwnerPassword := Some password |>.

(** [PdfPermissions] sets the PDF permission flags. *)
Definition PdfPermissions (permissions : string) (r : RenderRequest) : RenderRequest :=
  r <| pdfPermissions := Some permissions |>.

(** [PdfAccessibility] sets the PDF accessibility compliance level. *)
Definition PdfAccessibility (level : types.AccessibilityLevel) (r : RenderRequest) : RenderRequest :=
  r <| pdfAccessibility := Some level |>.

(** [PdfLinearize] enables or disables PDF linearization. *)
Definition PdfLinearize (enabled : bool) (r : RenderRequest) : RenderRequest :=
  r <| pdfLinearize := Some enabled |>.

(** *** Finalisation *)

(** [x != nil] *)
Definition non_nil {A : Type} (x : option A) : bool :=
  match x with Some _ => true | None => false end.

(** [if x != nil { m[key] = *x }], the pointee stored as the dynamic
    value [inj *x]. *)
Definition put {A : Type} (key : string) (inj : A -> value) (x : option A)
    (m : gmap string value) : gmap string value :=
  match x with
  | Some v => <[key := inj v]> m
  | None => m
  end.

(** [if s != "" { m[key] = s }] *)
Definition put_nonempty (key : string) (s : string) (m : gmap string value)
    : gmap string value :=
  if negb (String.eqb s "") then <[key := VString s]> m else m.

(** [make([]map[string]interface{}, n)]: [n] nil maps. *)
Definition make_maps (n : nat) : list (gmap string value) := replicate n ∅.

(** [for i, x := range src { ...; dst[i] = body x }] *)
Definition range_assign {A : Type} (body : A -> gmap string value)
    (src : list A) (dst : list (gmap string value))
    : list (gmap string value) :=
  foldl (fun dst ix => <[ix.1 := body ix.2]> dst) dst (imap pair src).

(** The body of the loop over [r.pdfEmbeddedFiles]. *)
Definition embedded_file_entry (ef : EmbeddedFile.t) : gmap string value :=
  let f : gmap string value :=
    <["data" := VString (EmbeddedFile.Data ef)]>
      (<["path" := VString (EmbeddedFile.Path ef)]> ∅) in
  let f := put_nonempty "mime_type" (EmbeddedFile.MimeType ef) f in
  let f := put_nonempty "description" (EmbeddedFile.Description ef) f in
  let f := put_nonempty "relationship" (EmbeddedFile.Relationship ef) f in
  f.

(** The body of the loop over [r.pdfBarcodes]. *)
Definition barcode_entry (bc : BarcodeConfig.t) : gmap string value :=
  let b : gmap string value :=
    <["data" := VString (BarcodeConfig.Data bc)]>
      (<["type" := VString (BarcodeConfig.Type_ bc)]> ∅) in
  let b := put "x" VFloat (BarcodeConfig.X bc) b in
  let b := put "y" VFloat (BarcodeConfig.Y bc) b in
  let b := put "width" VFloat (BarcodeConfig.Width bc) b in
  let b := put "height" VFloat (BarcodeConfig.Height bc) b in
  let b := put "anchor" VString (BarcodeConfig.Anchor bc) b in
  let b := put "foreground" VString (BarcodeConfig.Foreground bc) b in
  let b := put "background" VString (BarcodeConfig.Background bc) b in
  let b := put "draw_background" VBool (BarcodeConfig.DrawBg bc) b in
  let b := put "pages" VString (BarcodeConfig.Pages bc) b in
  b.

(** [buildPayload] builds the JSON payload map. *)
Definition buildPayload (r : RenderRequest) : gmap string value :=
  let p : gmap string value := ∅ in
  let p := put "html" VString (html r) p in
  let p := put "url" VString (url r) p in
  let format' := format r in
  let format' := if String.eqb format' "" then "pdf" else format' in
  let p := <["format" := VString format']> p in
  let p := put "width" VInt (width r) p in
  let p := put "height" VInt (height r) p in
  let p := put "paper" VString (paper r) p in
  let p := put "orientation" VString (orientation r) p in
  let p := put "margins" VString (margins r) p in
  let p := put "flow" VString (flow r) p in
  let p := put "density" VFloat (density r) p in
  let p := put "background" VString (background r) p in
  let p := put "timeout" VInt (timeout r) p in
  let p :=
    if non_nil (colors r) || non_nil (palette r) || non_nil (dither r) then
      let q : gmap string value := ∅ in
      let q := put "colors" VInt (colors r) q in
      let q := put "palette" id (palette r) q in
      let q := put "dither" VString (dither r) q in
      <["quantize" := VObject q]> p
    else p in
  let hasWatermark :=
    non_nil (pdfWatermarkText r) || non_nil (pdfWatermarkImage r) ||
    non_nil (pdfWatermarkOpacity r) || non_nil (pdfWatermarkRotation r) ||
    non_nil (pdfWatermarkColor r) || non_nil (pdfWatermarkFontSize r) ||
    non_nil (pdfWatermarkScale r) || non_nil (pdfWatermarkLayer r) ||
    non_nil (pdfWatermarkPages r) in
  let hasSignature :=
    non_nil (pdfSignCertificate r) || non_nil (pdfSignPassword r) ||
    non_nil (pdfSignName r) || non_nil (pdfSignReason r) ||
    non_nil (pdfSignLocation r) || non_nil (pdfSignTimestampUrl r) in
  let hasEncryption :=
    non_nil (pdfUserPassword r) || non_nil (pdfOwnerPassword r) ||
    non_nil (pdfPermissions r) in
  let p :=
    if non_nil (pdfTitle r) || non_nil (pdfAuthor r) ||
       non_nil (pdfSubject r) || non_nil (pdfKeywords r) ||
       non_nil (pdfCreator r) || non_nil (pdfBookmarks r) ||
       non_nil (pdfPageNumbers r) || hasWatermark ||
       non_nil (pdfStandard r) ||
       (0 <? length (pdfEmbeddedFiles r))%nat ||
       (0 <? length (pdfBarcodes r))%nat ||
       non_nil (pdfMode r) || hasSignature || hasEncryption ||
       non_nil (pdfAccessibility r) || non_nil (pdfLinearize r)
    then
      let pdf : gmap string value := ∅ in
      let pdf := put "title" VString (pdfTitle r) pdf in
      let pdf := put "author" VString (pdfAuthor r) pdf in
      let pdf := put "subject" VString (pdfSubject r) pdf in
      let pdf := put "keywords" VString (pdfKeywords r) pdf in
      let pdf := put "creator" VString (pdfCreator r) pdf in
      let pdf := put "bookmarks" VBool (pdfBookmarks r) pdf in
      let pdf := put "page_numbers" VBool (pdfPageNumbers r) pdf in
      let pdf :=
        if hasWatermark then
          let wm : gmap string value := ∅ in
          let wm := put "text" VString (pdfWatermarkText r) wm in
          let wm := put "image_data" VString (pdfWatermarkImage r) wm in
          let wm := put "opacity" VFloat (pdfWatermarkOpacity r) wm in
          let wm := put "rotation" VFloat (pdfWatermarkRotation r) wm in
          let wm := put "color" VString (pdfWatermarkColor r) wm in
          let wm := put "font_size" VFloat (pdfWatermarkFontSize r) wm in
          let wm := put "scale" VFloat (pdfWatermarkScale r) wm in
          let wm := put "layer" VString (pdfWatermarkLayer r) wm in
          let wm := put "pages" VString (pdfWatermarkPages r) wm in
          <["watermark" := VObject wm]> pdf
        else pdf in
      let pdf := put "standard" VString (pdfStandard r) pdf in
      let pdf :=
        if (0 <? length (pdfEmbeddedFiles r))%nat then
          let files := make_maps (length (pdfEmbeddedFiles r)) in
          let files :=
            range_assign embedded_file_entry (pdfEmbeddedFiles r) files in
          <["embedded_files" := VObjects files]> pdf
        else pdf in
      let pdf :=
        if (0 <? length (pdfBarcodes r))%nat then
          let barcodes := make_maps (length (pdfBarcodes r)) in
          let barcodes :=
            range_assign barcode_entry (pdfBarcodes r) barcodes in
          <["barcodes" := VObjects barcodes]> pdf
        else pdf in
      let pdf := put "mode" VString (pdfMode r) pdf in
      let pdf :=
        if hasSignature then
          let sig : gmap string value := ∅ in
          let sig := put "certificate_data" VString (pdfSignCertificate r) sig in
          let sig := put "password" VString (pdfSignPassword r) sig in
          let sig := put "signer_name" VString (pdfSignName r) sig in
          let sig := put "reason" VString (pdfSignReason r) sig in
          let sig := put "location" VString (pdfSignLocation r) sig in
          let sig := put "timestamp_url" VString (pdfSignTimestampUrl r) sig in
          <["signature" := VObject sig]> pdf
        else pdf in
      let pdf :=
        if hasEncryption then
          let enc : gmap string value := ∅ in
          let enc := put "user_password" VString (pdfUserPassword r) enc in
          let enc := put "owner_password" VString (pdfOwnerPassword r) enc in
          let enc := put "permissions" VString (pdfPermissions r) enc in
          <["encryption" := VObject enc]> pdf
        else pdf in
      let pdf := put "accessibility" VString (pdfAccessibility r) pdf in
      let pdf := put "linearize" VBool (pdfLinearize r) pdf in
      <["pdf" := VObject pdf]> p
    else p in
  p.

(** *** The exchange *)

Definition render_url (c : Client) : string := baseURL c ++ "/render".
Definition health_url (c : Client) : string := baseURL c ++ "/health".

(** [Send] executes the render request and returns the raw output bytes:
    the Go pair [([]byte, error)]. *)
Definition Send (ctx : context_Context) (r : RenderRequest)
    : option (list Byte.byte) * option error :=
  let payload := buildPayload r in
  match json_Marshal payload with
  | Err err => (None, Some (Errorf_w "forge: marshal error" err))
  | Ok body =>
    match http_NewRequestWithContext ctx http.MethodPost
            (render_url (client r)) (Some body) with
    | Err err => (None, Some (Errorf_w "forge: request error" err))
    | Ok req =>
      let req := Request_Header_Set "Content-Type" "application/json" req in
      match http_Client_Do (httpClient (client r)) req with
      | Err err => (None, Some (ConnectionError err))
      | Ok resp =>
        match io_ReadAll (http.Body resp) with
        | (_, Some err) => (None, Some (Errorf_w "forge: read body" err))
        | (data, None) =>
          if negb (http.StatusCode resp =? http.StatusOK)%Z then
            let msg := "HTTP " ++ itoa (http.StatusCode resp) in
            let msg :=
              match json_Unmarshal_errResp data with
              | Ok errResp_Error =>
                  if negb (String.eqb errResp_Error "") then errResp_Error
                  else msg
              | Err _ => msg
              end in
            (None, Some (ServerError (http.StatusCode resp) msg))
          else (Some data, None)
        end
      end
    end
  end.

(** [Health] checks if the server is healthy: the Go pair
    [(bool, error)]. *)
Definition Health (ctx : context_Context) (c : Client) : bool * option error :=
  match http_NewRequestWithContext ctx http.MethodGet (health_url c) None with
  | Err err => (false, Some err)
  | Ok req =>
    match http_Client_Do (httpClient c) req with
    | Err err => (false, Some (ConnectionError err))
    | Ok resp => ((http.StatusCode resp =? http.StatusOK)%Z, None)
    end
  end.

(** *** Chains of setter calls

    A caller configures a request by a chain of calls,
    [c.RenderHTML(h).Width(800).Palette(p)....]; [Call] names one call
    with its arguments, [call] performs it and [chain] performs a whole
    chain from left to right. *)
Inductive Call : Type :=
| CFormat (v : types.OutputFormat)
| CWidth (v : Z)
| CHeight (v : Z)
| CPaper (v : string)
| COrientation (v : types.Orientation)
| CMargins (v : string)
| CFlow (v : types.Flow)
| CDensity (v : float64)
| CBackground (v : string)
| CTimeout (v : Z)
| CColors (v : Z)
| CPalette (v : types.Palette)
| CCustomPalette (v : list string)
| CDither (v : types.DitherMethod)
| CPdfTitle (v : string)
| CPdfAuthor (v : string)
| CPdfSubject (v : string)
| CPdfKeywords (v : string)
| CPdfCreator (v : string)
| CPdfBookmarks (v : bool)
| CPdfPageNumbers (v : bool)
| CPdfWatermarkText (v : string)
| CPdfWatermarkImage (v : string)
| CPdfWatermarkOpacity (v : float64)
| CPdfWatermarkRotation (v : float64)
| CPdfWatermarkColor (v : string)
| CPdfWatermarkFontSize (v : float64)
| CPdfWatermarkScale (v : float64)
| CPdfWatermarkLayer (v : types.WatermarkLayer)
| CPdfStandard (v : types.PdfStandard)
| CPdfAttach (path data : string) (opts : list (EmbeddedFile.t -> EmbeddedFile.t))
| CPdfWatermarkPages (v : string)
| CPdfBarcode (barcodeType : types.BarcodeType) (data : string)
| CPdfBarcodeWith (v : BarcodeConfig.t)
| CPdfMode (v : types.PdfMode)
| CPdfSignCertificate (v : string)
| CPdfSignPassword (v : string)
| CPdfSignName (v : string)
| CPdfSignReason (v : string)
| CPdfSignLocation (v : string)
| CPdfSignTimestampUrl (v : string)
| CPdfUserPassword (v : string)
| CPdfOwnerPassword (v : string)
| CPdfPermissions (v : string)
| CPdfAccessibility (v : types.AccessibilityLevel)
| CPdfLinearize (v : bool).

Definition call (c : Call) (r : RenderRequest) : RenderRequest :=
  match c with
  | CFormat v => Format v r
  | CWidth v => Width v r
  | CHeight v => Height v r
  | CPaper v => Paper v r
  | COrientation v => Orientation v r
  | CMargins v => Margins v r
  | CFlow v => Flow v r
  | CDensity v => Density v r
  | CBackground v => Background v r
  | CTimeout v => Timeout v r
  | CColors v => Colors v r
  | CPalette v => Palette v r
  | CCustomPalette v => CustomPalette v r
  | CDither v => Dither v r
  | CPdfTitle v => PdfTitle v r
  | CPdfAuthor v => PdfAuthor v r
  | CPdfSubject v => PdfSubject v r
  | CPdfKeywords v => PdfKeywords v r
  | CPdfCreator v => PdfCreator v r
  | CPdfBookmarks v => PdfBookmarks v r
  | CPdfPageNumbers v => PdfPageNumbers v r
  | CPdfWatermarkText v => PdfWatermarkText v r
  | CPdfWatermarkImage v => PdfWatermarkImage v r
  | CPdfWatermarkOpacity v => PdfWatermarkOpacity v r
  | CPdfWatermarkRotation v => PdfWatermarkRotation v r
  | CPdfWatermarkColor v => PdfWatermarkColor v r
  | CPdfWatermarkFontSize v => PdfWatermarkFontSize v r
  | CPdfWatermarkScale v => PdfWatermarkScale v r
  | CPdfWatermarkLayer v => PdfWatermarkLayer v r
  | CPdfStandard v => PdfStandard v r
  | CPdfAttach path data opts => PdfAttach path data opts r
  | CPdfWatermarkPages v => PdfWatermarkPages v r
  | CPdfBarcode barcodeType data => PdfBarcode barcodeType data r
  | CPdfBarcodeWith v => PdfBarcodeWith v r
  | CPdfMode v => PdfMode v r
  | CPdfSignCertificate v => PdfSignCertificate v r
  | CPdfSignPassword v => PdfSignPassword v r
  | CPdfSignName v => PdfSignName v r
  | CPdfSignReason v => PdfSignReason v r
  | CPdfSignLocation v => PdfSignLocation v r
  | CPdfSignTimestampUrl v => PdfSignTimestampUrl v r
  | CPdfUserPassword v => PdfUserPassword v r
  | CPdfOwnerPassword v => PdfOwnerPassword v r
  | CPdfPermissions v => PdfPermissions v r
  | CPdfAccessibility v => PdfAccessibility v r
  | CPdfLinearize v => PdfLinearize v r
  end.

Definition chain (cs : list Call) (r : RenderRequest) : RenderRequest :=
  foldl (fun r c => call c r) r cs.

End Forge.

(** * Properties *)

#[local] Open Scope list_scope.

(** ** What a group is said to contain

    The member fields of a group are listed as pairs of the wire key and
    the value the caller set for it, if any. *)
Definition members : Type := list (string * option value).

(** At least one member field was explicitly set. *)
Definition any_set (ms : members) : Prop :=
  exists k v, (k, Some v) ∈ ms.

(** The object holds exactly the member fields that were set: each member
    key is bound to its value when set and unbound when not, and no other
    key is bound. *)
Definition holds_exactly (m : gmap string value) (ms : members) : Prop :=
  (forall k o, (k, o) ∈ ms -> m !! k = o) /\
  (forall k, k ∉ ms.*1 -> m !! k = None).

(** The group is present under its key iff a member was set, and then it
    is an object holding exactly the set members. *)
Definition group_ok (g : option value) (ms : members) : Prop :=
  (is_Some g <-> any_set ms) /\
  (forall v, g = Some v -> exists m, v = VObject m /\ holds_exactly m ms).

(** ** Maps built by conditional assignments *)

Definition entry (m : gmap string value) (kv : string * option value)
    : gmap string value :=
  match kv.2 with
  | Some v => <[kv.1 := v]> m
  | None => m
  end.

Definition collect (ms : members) : gmap string value := foldl entry ∅ ms.

Lemma put_entry {A : Type} (key : string) (inj : A -> value) (x : option A)
    (m : gmap string value) :
  put key inj x m = entry m (key, inj <$> x).
Proof. destruct x; reflexivity. Qed.

Lemma put_nonempty_entry (key s : string) (m : gmap string value) :
  put_nonempty key s m =
  entry m (key, if String.eqb s "" then None else Some (VString s)).
Proof. unfold put_nonempty. destruct (String.eqb s ""); reflexivity. Qed.

Lemma insert_entry (key : string) (v : value) (m : gmap string value) :
  <[key := v]> m = entry m (key, Some v).
Proof. reflexivity. Qed.

Lemma if_insert_entry (b : bool) (key : string) (v : value)
    (m : gmap string value) :
  (if b then <[key := v]> m else m) =
  entry m (key, if b then Some v else None).
Proof. destruct b; reflexivity. Qed.

Lemma lookup_entry (m : gmap string value) (kv : string * option value)
    (k : string) :
  entry m kv !! k =
  if decide (kv.1 = k) then
    match kv.2 with Some v => Some v | None => m !! k end
  else m !! k.
Proof.
  unfold entry. destruct kv as [k' [v|]]; simpl.
  - rewrite lookup_insert. reflexivity.
  - case_decide; reflexivity.
Qed.

Lemma collect_snoc (ms : members) (kv : string * option value) :
  collect (ms ++ [kv]) = entry (collect ms) kv.
Proof. unfold collect. apply foldl_snoc. Qed.

Lemma collect_absent (ms : members) (k : string) :
  k ∉ ms.*1 -> collect ms !! k = None.
Proof.
  induction ms as [|kv ms IH] using rev_ind; intros Hk.
  - apply lookup_empty.
  - rewrite collect_snoc, lookup_entry.
    rewrite fmap_app, not_elem_of_app in Hk. destruct Hk as [Hms Hkv].
    simpl in Hkv. rewrite not_elem_of_cons in Hkv. destruct Hkv as [Hne _].
    case_decide; [congruence|]. auto.
Qed.

Lemma collect_member (ms : members) (k : string) (o : option value) :
  NoDup ms.*1 -> (k, o) ∈ ms -> collect ms !! k = o.
Proof.
  induction ms as [|kv ms IH] using rev_ind; intros Hnd Hin.
  - inversion Hin.
  - rewrite fmap_app in Hnd. apply NoDup_app in Hnd as (Hnd & Hdisj & _).
    rewrite collect_snoc, lookup_entry.
    apply elem_of_app in Hin as [Hin|Hin].
    + assert (Hk : k ∈ ms.*1).
      { apply list_elem_of_fmap. exists (k, o). auto. }
      case_decide as Heq.
      * exfalso. apply (Hdisj k Hk). simpl. rewrite Heq. left.
      * auto.
    + apply list_elem_of_singleton in Hin. subst kv. simpl.
      rewrite decide_True by reflexivity.
      destruct o as [v|]; [reflexivity|].
      apply collect_absent. intros Hk. apply (Hdisj k Hk). simpl. left.
Qed.

Lemma collect_holds_exactly (ms : members) :
  NoDup ms.*1 -> holds_exactly (collect ms) ms.
Proof.
  intros Hnd. split.
  - intros k o. apply collect_member, Hnd.
  - intros k. apply collect_absent.
Qed.

Lemma any_set_nil : any_set [] <-> False.
Proof. split; [|tauto]. intros (k & v & H). inversion H. Qed.

Lemma any_set_cons (k : string) (o : option value) (ms : members) :
  any_set ((k, o) :: ms) <-> is_Some o \/ any_set ms.
Proof.
  unfold any_set. split.
  - intros (k' & v & H). apply elem_of_cons in H as [H|H].
    + left. inversion H. eauto.
    + right. eauto.
  - intros [[v ->]|(k' & v & H)].
    + exists k, v. left.
    + exists k', v. right. exact H.
Qed.

Lemma any_set_app (ms1 ms2 : members) :
  any_set (ms1 ++ ms2) <-> any_set ms1 \/ any_set ms2.
Proof.
  unfold any_set. split.
  - intros (k & v & H). apply elem_of_app in H as [H|H]; eauto.
  - intros [(k & v & H)|(k & v & H)]; exists k, v; apply elem_of_app; auto.
Qed.

Lemma non_nil_true {A : Type} (x : option A) : non_nil x = true <-> is_Some x.
Proof.
  destruct x; simpl; split; eauto; try discriminate.
  intros [? ?]. discriminate.
Qed.

(** A conditionally emitted group, seen from its parent. *)
Lemma group_ok_intro (cond : bool) (ms : members) :
  NoDup ms.*1 ->
  (cond = true <-> any_set ms) ->
  group_ok (if cond then Some (VObject (collect ms)) else None) ms.
Proof.
  intros Hnd Hcond. split.
  - rewrite <- Hcond. destruct cond; split; eauto; try discriminate.
    intros [? ?]. discriminate.
  - intros v Hv. destruct cond; [|discriminate].
    injection Hv as <-. eexists. split; [reflexivity|].
    apply collect_holds_exactly, Hnd.
Qed.

(** The range loops fill the preallocated slice with the entries, in the
    order of the source slice. *)
Lemma range_assign_from {A : Type} (body : A -> gmap string value)
    (src : list A) :
  forall filled rest : list (gmap string value),
    length rest = length src ->
    foldl (fun dst ix => <[ix.1 := body ix.2]> dst) (filled ++ rest)
          (imap (fun i x => (length filled + i, x)) src)
    = filled ++ (body <$> src).
Proof.
  induction src as [|x src IH]; intros filled rest Hlen.
  - destruct rest; [reflexivity|discriminate].
  - destruct rest as [|y rest]; [discriminate|].
    rewrite imap_cons. simpl foldl. rewrite insert_app_r. simpl.
    replace (filled ++ body x :: rest) with ((filled ++ [body x]) ++ rest)
      by (rewrite <- app_assoc; reflexivity).
    rewrite (imap_ext _ (fun i z => (length (filled ++ [body x]) + i, z))).
    + rewrite IH by (simpl in Hlen; lia).
      rewrite <- app_assoc. reflexivity.
    + intros i z _. simpl. rewrite length_app. simpl. f_equal. lia.
Qed.

Lemma range_assign_make {A : Type} (body : A -> gmap string value)
    (src : list A) :
  range_assign body src (make_maps (length src)) = body <$> src.
Proof.
  unfold range_assign, make_maps.
  apply (range_assign_from body src [] (replicate (length src) ∅)).
  apply length_replicate.
Qed.

Ltac solve_NoDup := apply (bool_decide_unpack _); vm_compute; exact I.

Ltac solve_elem_of :=
  repeat first [apply list_elem_of_here | apply list_elem_of_further].

Section Payload.

Context `{rt : GoRuntime}.

(** ** The member fields of each group, by wire key *)

Definition quantize_members (r : RenderRequest) : members :=
  [("colors", VInt <$> colors r);
   ("palette", palette r);
   ("dither", VString <$> dither r)].

Definition watermark_members (r : RenderRequest) : members :=
  [("text", VString <$> pdfWatermarkText r);
   ("image_data", VString <$> pdfWatermarkImage r);
   ("opacity", VFloat <$> pdfWatermarkOpacity r);
   ("rotation", VFloat <$> pdfWatermarkRotation r);
   ("color", VString <$> pdfWatermarkColor r);
   ("font_size", VFloat <$> pdfWatermarkFontSize r);
   ("scale", VFloat <$> pdfWatermarkScale r);
   ("layer", VString <$> pdfWatermarkLayer r);
   ("pages", VString <$> pdfWatermarkPages r)].

Definition signature_members (r : RenderRequest) : members :=
  [("certificate_data", VString <$> pdfSignCertificate r);
   ("password", VString <$> pdfSignPassword r);
   ("signer_name", VString <$> pdfSignName r);
   ("reason", VString <$> pdfSignReason r);
   ("location", VString <$> pdfSignLocation r);
   ("timestamp_url", VString <$> pdfSignTimestampUrl r)].

Definition encryption_members (r : RenderRequest) : members :=
  [("user_password", VString <$> pdfUserPassword r);
   ("owner_password", VString <$> pdfOwnerPassword r);
   ("permissions", VString <$> pdfPermissions r)].

(** A repeatable field is set once it has an entry; its value is the
    array of the entries' objects. *)
Definition array_value {A : Type} (body : A -> gmap string value)
    (l : list A) : option value :=
  if (0 <? length l)%nat then Some (VObjects (body <$> l)) else None.

(** The members the pdf group holds directly, besides its three nested
    groups. *)
Definition pdf_own_members (r : RenderRequest) : members :=
  [("title", VString <$> pdfTitle r);
   ("author", VString <$> pdfAuthor r);
   ("subject", VString <$> pdfSubject r);
   ("keywords", VString <$> pdfKeywords r);
   ("creator", VString <$> pdfCreator r);
   ("bookmarks", VBool <$> pdfBookmarks r);
   ("page_numbers", VBool <$> pdfPageNumbers r);
   ("standard", VString <$> pdfStandard r);
   ("embedded_files", array_value embedded_file_entry (pdfEmbeddedFiles r));
   ("barcodes", array_value barcode_entry (pdfBarcodes r));
   ("mode", VString <$> pdfMode r);
   ("accessibility", VString <$> pdfAccessibility r);
   ("linearize", VBool <$> pdfLinearize r)].

(** Every member field of the pdf domain, across its nested groups. *)
Definition pdf_fields (r : RenderRequest) : members :=
  pdf_own_members r ++ watermark_members r ++ signature_members r ++
  encryption_members r.

(** ** The payload as a collection of entries *)

Definition hasQuantize (r : RenderRequest) : bool :=
  non_nil (colors r) || non_nil (palette r) || non_nil (dither r).

Definition hasWatermark (r : RenderRequest) : bool :=
  non_nil (pdfWatermarkText r) || non_nil (pdfWatermarkImage r) ||
  non_nil (pdfWatermarkOpacity r) || non_nil (pdfWatermarkRotation r) ||
  non_nil (pdfWatermarkColor r) || non_nil (pdfWatermarkFontSize r) ||
  non_nil (pdfWatermarkScale r) || non_nil (pdfWatermarkLayer r) ||
  non_nil (pdfWatermarkPages r).

Definition hasSignature (r : RenderRequest) : bool :=
  non_nil (pdfSignCertificate r) || non_nil (pdfSignPassword r) ||
  non_nil (pdfSignName r) || non_nil (pdfSignReason r) ||
  non_nil (pdfSignLocation r) || non_nil (pdfSignTimestampUrl r).

Definition hasEncryption (r : RenderRequest) : bool :=
  non_nil (pdfUserPassword r) || non_nil (pdfOwnerPassword r) ||
  non_nil (pdfPermissions r).

Definition hasPdf (r : RenderRequest) : bool :=
  non_nil (pdfTitle r) || non_nil (pdfAuthor r) ||
  non_nil (pdfSubject r) || non_nil (pdfKeywords r) ||
  non_nil (pdfCreator r) || non_nil (pdfBookmarks r) ||
  non_nil (pdfPageNumbers r) || hasWatermark r ||
  non_nil (pdfStandard r) ||
  (0 <? length (pdfEmbeddedFiles r))%nat ||
  (0 <? length (pdfBarcodes r))%nat ||
  non_nil (pdfMode r) || hasSignature r || hasEncryption r ||
  non_nil (pdfAccessibility r) || non_nil (pdfLinearize r).

Definition group_value (cond : bool) (ms : members) : option value :=
  if cond then Some (VObject (collect ms)) else None.

Definition pdf_entries (r : RenderRequest) : members :=
  [("title", VString <$> pdfTitle r);
   ("author", VString <$> pdfAuthor r);
   ("subject", VString <$> pdfSubject r);
   ("keywords", VString <$> pdfKeywords r);
   ("creator", VString <$> pdfCreator r);
   ("bookmarks", VBool <$> pdfBookmarks r);
   ("page_numbers", VBool <$> pdfPageNumbers r);
   ("watermark", group_value (hasWatermark r) (watermark_members r));
   ("standard", VString <$> pdfStandard r);
   ("embedded_files", array_value embedded_file_entry (pdfEmbeddedFiles r));
   ("barcodes", array_value barcode_entry (pdfBarcodes r));
   ("mode", VString <$> pdfMode r);
   ("signature", group_value (hasSignature r) (signature_members r));
   ("encryption", group_value (hasEncryption r) (encryption_members r));
   ("accessibility", VString <$> pdfAccessibility r);
   ("linearize", VBool <$> pdfLinearize r)].

Definition payload_entries (r : RenderRequest) : members :=
  [("html", VString <$> html r);
   ("url", VString <$> url r);
   ("format",
    Some (VString (if String.eqb (format r) "" then "pdf" else format r)));
   ("width", VInt <$> width r);
   ("height", VInt <$> height r);
   ("paper", VString <$> paper r);
   ("orientation", VString <$> orientation r);
   ("margins", VString <$> margins r);
   ("flow", VString <$> flow r);
   ("density", VFloat <$> density r);
   ("background", VString <$> background r);
   ("timeout", VInt <$> timeout r);
   ("quantize", group_value (hasQuantize r) (quantize_members r));
   ("pdf", group_value (hasPdf r) (pdf_entries r))].

Lemma if_insert_array {A : Type} (body : A -> gmap string value)
    (l : list A) (key : string) (m : gmap string value) :
  (if (0 <? length l)%nat
   then <[key := VObjects (range_assign body l (make_maps (length l)))]> m
   else m) =
  entry m (key, array_value body l).
Proof.
  unfold array_value. rewrite range_assign_make.
  destruct (0 <? length l)%nat; reflexivity.
Qed.

Lemma buildPayload_collect (r : RenderRequest) :
  buildPayload r = collect (payload_entries r).
Proof.
  unfold buildPayload. cbv zeta.
  rewrite !if_insert_array.
  rewrite !put_entry, option_fmap_id.
  rewrite !if_insert_entry.
  reflexivity.
Qed.

Lemma payload_entries_NoDup (r : RenderRequest) : NoDup (payload_entries r).*1.
Proof. solve_NoDup. Qed.

Lemma pdf_entries_NoDup (r : RenderRequest) : NoDup (pdf_entries r).*1.
Proof. solve_NoDup. Qed.

Lemma pdf_own_in_entries (r : RenderRequest) (k : string) (o : option value) :
  (k, o) ∈ pdf_own_members r -> (k, o) ∈ pdf_entries r.
Proof. unfold pdf_own_members, pdf_entries. rewrite !elem_of_cons. tauto. Qed.

Lemma buildPayload_lookup (r : RenderRequest) (k : string) (o : option value) :
  (k, o) ∈ payload_entries r -> buildPayload r !! k = o.
Proof.
  rewrite buildPayload_collect.
  apply collect_member, payload_entries_NoDup.
Qed.

Lemma buildPayload_quantize (r : RenderRequest) :
  buildPayload r !! "quantize" =
  group_value (hasQuantize r) (quantize_members r).
Proof. apply buildPayload_lookup. unfold payload_entries. solve_elem_of. Qed.

Lemma buildPayload_pdf (r : RenderRequest) :
  buildPayload r !! "pdf" = group_value (hasPdf r) (pdf_entries r).
Proof. apply buildPayload_lookup. unfold payload_entries. solve_elem_of. Qed.

Lemma array_value_is_Some {A : Type} (body : A -> gmap string value)
    (l : list A) :
  is_Some (array_value body l) <-> (0 <? length l)%nat = true.
Proof.
  unfold array_value. destruct (0 <? length l)%nat; split; eauto.
  - intros [? ?]. discriminate.
  - discriminate.
Qed.

Ltac solve_has_any :=
  rewrite ?orb_true_iff, ?any_set_app, ?any_set_cons, ?any_set_nil,
          ?array_value_is_Some, ?fmap_is_Some, ?non_nil_true;
  tauto.

Lemma hasQuantize_any_set (r : RenderRequest) :
  hasQuantize r = true <-> any_set (quantize_members r).
Proof. unfold hasQuantize, quantize_members. solve_has_any. Qed.

Lemma hasWatermark_any_set (r : RenderRequest) :
  hasWatermark r = true <-> any_set (watermark_members r).
Proof. unfold hasWatermark, watermark_members. solve_has_any. Qed.

Lemma hasSignature_any_set (r : RenderRequest) :
  hasSignature r = true <-> any_set (signature_members r).
Proof. unfold hasSignature, signature_members. solve_has_any. Qed.

Lemma hasEncryption_any_set (r : RenderRequest) :
  hasEncryption r = true <-> any_set (encryption_members r).
Proof. unfold hasEncryption, encryption_members. solve_has_any. Qed.

Lemma hasPdf_any_set (r : RenderRequest) :
  hasPdf r = true <-> any_set (pdf_fields r).
Proof.
  unfold hasPdf, pdf_fields. rewrite !orb_true_iff, !any_set_app.
  rewrite hasWatermark_any_set, hasSignature_any_set, hasEncryption_any_set.
  unfold pdf_own_members. solve_has_any.
Qed.

Lemma group_value_ok (cond : bool) (ms : members) :
  NoDup ms.*1 -> (cond = true <-> any_set ms) ->
  group_ok (group_value cond ms) ms.
Proof. apply group_ok_intro. Qed.

(** C1. For every request state, the quantize group, the pdf group and,
    inside the pdf group, the watermark, signature and encryption groups
    are present iff at least one of their member fields is set, and a
    present group is an object holding exactly the members that are set:
    nothing is bound for an unset member and no other key is bound. *)
Theorem groups_present_iff_member_set (r : RenderRequest) :
  let p := buildPayload r in
  group_ok (p !! "quantize") (quantize_members r) /\
  (is_Some (p !! "pdf") <-> any_set (pdf_fields r)) /\
  (forall v, p !! "pdf" = Some v ->
     exists pdf, v = VObject pdf /\
       group_ok (pdf !! "watermark") (watermark_members r) /\
       group_ok (pdf !! "signature") (signature_members r) /\
       group_ok (pdf !! "encryption") (encryption_members r) /\
       (forall k o, (k, o) ∈ pdf_own_members r -> pdf !! k = o) /\
       (forall k, k ∉ (pdf_own_members r).*1 ->
                  k ∉ ["watermark"; "signature"; "encryption"] ->
                  pdf !! k = None)).
Proof.
  intros p. subst p. rewrite buildPayload_quantize, buildPayload_pdf.
  split; [|split].
  - apply group_value_ok; [solve_NoDup|apply hasQuantize_any_set].
  - rewrite <- hasPdf_any_set. unfold group_value.
    destruct (hasPdf r); split; eauto; try discriminate.
    intros [? ?]. discriminate.
  - intros v Hv. unfold group_value in Hv.
    destruct (hasPdf r); [|discriminate]. injection Hv as <-.
    eexists. split; [reflexivity|].
    pose proof (pdf_entries_NoDup r) as Hnd.
    pose proof (collect_holds_exactly _ Hnd) as [Hmem Habs].
    split; [|split; [|split; [|split]]].
    + rewrite (Hmem "watermark" _ ltac:(unfold pdf_entries; solve_elem_of)).
      apply group_value_ok; [solve_NoDup|apply hasWatermark_any_set].
    + rewrite (Hmem "signature" _ ltac:(unfold pdf_entries; solve_elem_of)).
      apply group_value_ok; [solve_NoDup|apply hasSignature_any_set].
    + rewrite (Hmem "encryption" _ ltac:(unfold pdf_entries; solve_elem_of)).
      apply group_value_ok; [solve_NoDup|apply hasEncryption_any_set].
    + intros k o Hin. apply Hmem, pdf_own_in_entries, Hin.
    + intros k Hown Hsub. apply Habs. revert Hown Hsub.
      unfold pdf_own_members, pdf_entries. simpl.
      rewrite !elem_of_cons. tauto.
Qed.

(** C4. A request on which only the source was set finalises to exactly
    two keys, the source and [format = "pdf"]; in particular no group key
    is present. *)
Theorem source_only_payload (c : Client) (src : string) :
  buildPayload (RenderHTML c src) =
    {[ "html" := VString src; "format" := VString "pdf" ]} /\
  buildPayload (RenderURL c src) =
    {[ "url" := VString src; "format" := VString "pdf" ]} /\
  size (buildPayload (RenderHTML c src)) = 2 /\
  size (buildPayload (RenderURL c src)) = 2 /\
  (forall k, k <> "html" -> k <> "format" ->
             buildPayload (RenderHTML c src) !! k = None) /\
  (forall k, k <> "url" -> k <> "format" ->
             buildPayload (RenderURL c src) !! k = None).
Proof.
  assert (Hh : buildPayload (RenderHTML c src) =
               {[ "html" := VString src; "format" := VString "pdf" ]}).
  { vm_compute. reflexivity. }
  assert (Hu : buildPayload (RenderURL c src) =
               {[ "url" := VString src; "format" := VString "pdf" ]}).
  { vm_compute. reflexivity. }
  rewrite Hh, Hu.
  do 4 (split; [reflexivity|]).
  split; intros k H1 H2.
  - rewrite lookup_insert_ne by congruence. apply lookup_singleton_ne. congruence.
  - rewrite lookup_insert_ne by congruence. apply lookup_singleton_ne. congruence.
Qed.

(** ** Reading a member of a nested group *)

(** [p[group][key]], when [p[group]] is an object. *)
Definition nested (group key : string) (p : gmap string value)
    : option value :=
  match p !! group with
  | Some (VObject m) => m !! key
  | _ => None
  end.

Lemma nested_quantize (r : RenderRequest) (k : string) (v : value) :
  (k, Some v) ∈ quantize_members r ->
  nested "quantize" k (buildPayload r) = Some v.
Proof.
  intros Hin. unfold nested. rewrite buildPayload_quantize.
  assert (Hq : hasQuantize r = true) by (apply hasQuantize_any_set; red; eauto).
  rewrite Hq. simpl. apply collect_member; [solve_NoDup|exact Hin].
Qed.

Lemma nested_pdf_own (r : RenderRequest) (k : string) (v : value) :
  (k, Some v) ∈ pdf_own_members r ->
  nested "pdf" k (buildPayload r) = Some v.
Proof.
  intros Hin. unfold nested. rewrite buildPayload_pdf.
  assert (Hq : hasPdf r = true).
  { apply hasPdf_any_set. unfold pdf_fields. apply any_set_app. left.
    red; eauto. }
  rewrite Hq. simpl.
  apply collect_member; [apply pdf_entries_NoDup|].
  apply pdf_own_in_entries, Hin.
Qed.

(** C7. After [PdfBookmarks(false)] the pdf group is present and holds
    [bookmarks = false]: a boolean set to false is serialised like one
    set to true. *)
Theorem explicit_false_bookmarks (r : RenderRequest) (enabled : bool) :
  exists pdf,
    buildPayload (PdfBookmarks false r) !! "pdf" = Some (VObject pdf) /\
    pdf !! "bookmarks" = Some (VBool false) /\
    nested "pdf" "bookmarks" (buildPayload (PdfBookmarks enabled r))
      = Some (VBool enabled).
Proof.
  assert (Hn : forall b, nested "pdf" "bookmarks"
                 (buildPayload (PdfBookmarks b r)) = Some (VBool b)).
  { intros b. apply nested_pdf_own. unfold pdf_own_members. simpl.
    solve_elem_of. }
  specialize (Hn false) as Hf. unfold nested in Hf.
  destruct (buildPayload (PdfBookmarks false r) !! "pdf") as [[| | | | |pdf|]|];
    try discriminate.
  exists pdf. auto.
Qed.

(** ** Chains of calls *)

Lemma chain_app (cs1 cs2 : list Call) (r : RenderRequest) :
  chain (cs1 ++ cs2) r = chain cs2 (chain cs1 r).
Proof. unfold chain. apply foldl_app. Qed.

Lemma chain_cons (c : Call) (cs : list Call) (r : RenderRequest) :
  chain (c :: cs) r = chain cs (call c r).
Proof. reflexivity. Qed.

(** The palette slot a call writes, if it writes it. *)
Definition palette_written (c : Call) : option value :=
  match c with
  | CPalette p => Some (VString p)
  | CCustomPalette colors => Some (VStrings colors)
  | _ => None
  end.

Lemma call_palette (c : Call) (r : RenderRequest) :
  palette (call c r) =
  match palette_written c with Some v => Some v | None => palette r end.
Proof. destruct c; reflexivity. Qed.

Lemma chain_palette_kept (cs : list Call) (r : RenderRequest) :
  Forall (fun c => palette_written c = None) cs ->
  palette (chain cs r) = palette r.
Proof.
  revert r. induction cs as [|c cs IH]; intros r Hcs; [reflexivity|].
  inversion Hcs as [|? ? Hc Hrest]; subst.
  rewrite chain_cons, IH by assumption.
  rewrite call_palette, Hc. reflexivity.
Qed.

(** C5. In any chain of calls, the palette member of the quantize group
    is the value of the last [Palette]/[CustomPalette] call alone: the
    string of the preset after [Palette], the array of colors after
    [CustomPalette], whatever palette calls came before it. *)
Theorem palette_last_call_wins (r0 : RenderRequest) (before after : list Call) :
  Forall (fun c => palette_written c = None) after ->
  (forall p : types.Palette,
     nested "quantize" "palette"
       (buildPayload (chain (before ++ CPalette p :: after) r0))
     = Some (VString p)) /\
  (forall colors : list string,
     nested "quantize" "palette"
       (buildPayload (chain (before ++ CCustomPalette colors :: after) r0))
     = Some (VStrings colors)).
Proof.
  intros Hafter. split; intros x; apply nested_quantize;
    unfold quantize_members;
    rewrite chain_app, chain_cons, chain_palette_kept by assumption;
    rewrite call_palette; simpl; solve_elem_of.
Qed.

(** The entry a call appends to the barcodes, if it appends one. *)
Definition barcode_appended (c : Call) : option BarcodeConfig.t :=
  match c with
  | CPdfBarcode barcodeType data =>
      Some (BarcodeConfig.mk barcodeType data None None None None None None
                             None None None)
  | CPdfBarcodeWith config => Some config
  | _ => None
  end.

(** The entry a call appends to the embedded files, if it appends one. *)
Definition file_appended (c : Call) : option EmbeddedFile.t :=
  match c with
  | CPdfAttach path data opts =>
      Some (foldl (fun ef opt => opt ef) (EmbeddedFile.mk path data "" "" "")
                  opts)
  | _ => None
  end.

Lemma call_pdfBarcodes (c : Call) (r : RenderRequest) :
  pdfBarcodes (call c r) = pdfBarcodes r ++ option_list (barcode_appended c).
Proof. destruct c; simpl; rewrite ?app_nil_r; reflexivity. Qed.

Lemma call_pdfEmbeddedFiles (c : Call) (r : RenderRequest) :
  pdfEmbeddedFiles (call c r) =
  pdfEmbeddedFiles r ++ option_list (file_appended c).
Proof. destruct c; simpl; rewrite ?app_nil_r; reflexivity. Qed.

Lemma omap_cons_option_list {A B : Type} (f : A -> option B) (x : A)
    (l : list A) :
  omap f (x :: l) = option_list (f x) ++ omap f l.
Proof. simpl. destruct (f x); reflexivity. Qed.

Lemma chain_pdfBarcodes (cs : list Call) (r : RenderRequest) :
  pdfBarcodes (chain cs r) = pdfBarcodes r ++ omap barcode_appended cs.
Proof.
  revert r. induction cs as [|c cs IH]; intros r.
  - simpl. rewrite app_nil_r. reflexivity.
  - rewrite chain_cons, IH, call_pdfBarcodes, omap_cons_option_list.
    rewrite <- app_assoc. reflexivity.
Qed.

Lemma chain_pdfEmbeddedFiles (cs : list Call) (r : RenderRequest) :
  pdfEmbeddedFiles (chain cs r) = pdfEmbeddedFiles r ++ omap file_appended cs.
Proof.
  revert r. induction cs as [|c cs IH]; intros r.
  - simpl. rewrite app_nil_r. reflexivity.
  - rewrite chain_cons, IH, call_pdfEmbeddedFiles, omap_cons_option_list.
    rewrite <- app_assoc. reflexivity.
Qed.

(** The members of one barcode object and of one embedded-file object. *)
Definition barcode_members (bc : BarcodeConfig.t) : members :=
  [("type", Some (VString (BarcodeConfig.Type_ bc)));
   ("data", Some (VString (BarcodeConfig.Data bc)));
   ("x", VFloat <$> BarcodeConfig.X bc);
   ("y", VFloat <$> BarcodeConfig.Y bc);
   ("width", VFloat <$> BarcodeConfig.Width bc);
   ("height", VFloat <$> BarcodeConfig.Height bc);
   ("anchor", VString <$> BarcodeConfig.Anchor bc);
   ("foreground", VString <$> BarcodeConfig.Foreground bc);
   ("background", VString <$> BarcodeConfig.Background bc);
   ("draw_background", VBool <$> BarcodeConfig.DrawBg bc);
   ("pages", VString <$> BarcodeConfig.Pages bc)].

(** An optional string member of an embedded file is set when it is not
    empty. *)
Definition nonempty (s : string) : option value :=
  if String.eqb s "" then None else Some (VString s).

Definition embedded_file_members (ef : EmbeddedFile.t) : members :=
  [("path", Some (VString (EmbeddedFile.Path ef)));
   ("data", Some (VString (EmbeddedFile.Data ef)));
   ("mime_type", nonempty (EmbeddedFile.MimeType ef));
   ("description", nonempty (EmbeddedFile.Description ef));
   ("relationship", nonempty (EmbeddedFile.Relationship ef))].

Lemma barcode_entry_exact (bc : BarcodeConfig.t) :
  holds_exactly (barcode_entry bc) (barcode_members bc).
Proof.
  replace (barcode_entry bc) with (collect (barcode_members bc)).
  - apply collect_holds_exactly. solve_NoDup.
  - unfold barcode_entry. cbv zeta. rewrite !put_entry. reflexivity.
Qed.

Lemma embedded_file_entry_exact (ef : EmbeddedFile.t) :
  holds_exactly (embedded_file_entry ef) (embedded_file_members ef).
Proof.
  replace (embedded_file_entry ef) with (collect (embedded_file_members ef)).
  - apply collect_holds_exactly. solve_NoDup.
  - unfold embedded_file_entry. cbv zeta. rewrite !put_nonempty_entry.
    reflexivity.
Qed.

Lemma nested_pdf_array (r : RenderRequest) (k : string) (o : option value) :
  (k, o) ∈ pdf_own_members r ->
  (is_Some o -> nested "pdf" k (buildPayload r) = o) /\
  (o = None -> nested "pdf" k (buildPayload r) = None).
Proof.
  intros Hin. split.
  - intros [v ->]. apply nested_pdf_own, Hin.
  - intros ->. unfold nested. rewrite buildPayload_pdf. unfold group_value.
    destruct (hasPdf r); [|reflexivity].
    apply collect_member; [apply pdf_entries_NoDup|].
    apply pdf_own_in_entries, Hin.
Qed.

Lemma nested_pdf_member (r : RenderRequest) (k : string) (o : option value) :
  (k, o) ∈ pdf_own_members r -> nested "pdf" k (buildPayload r) = o.
Proof.
  intros Hin. destruct (nested_pdf_array r k o Hin) as [Hs Hn].
  destruct o as [v|]; [apply Hs; eauto|apply Hn; reflexivity].
Qed.

(** C6. After any chain of calls, [pdf.barcodes] and [pdf.embedded_files]
    are the arrays of the objects of the appended entries, in the order
    of the calls and after the entries the request already had; the key
    is absent while there is no entry. Each object binds its required
    members and, of the optional ones, exactly those that are set (a
    non-nil pointer of a barcode, a non-empty string of an embedded
    file). *)
Theorem repeatable_fields_in_call_order (r0 : RenderRequest) (cs : list Call) :
  nested "pdf" "barcodes" (buildPayload (chain cs r0)) =
    array_value barcode_entry (pdfBarcodes r0 ++ omap barcode_appended cs) /\
  nested "pdf" "embedded_files" (buildPayload (chain cs r0)) =
    array_value embedded_file_entry
                (pdfEmbeddedFiles r0 ++ omap file_appended cs) /\
  (forall bc, holds_exactly (barcode_entry bc) (barcode_members bc)) /\
  (forall ef, holds_exactly (embedded_file_entry ef)
                            (embedded_file_members ef)).
Proof.
  split; [|split; [|split]].
  - rewrite <- chain_pdfBarcodes. apply nested_pdf_member.
    unfold pdf_own_members. solve_elem_of.
  - rewrite <- chain_pdfEmbeddedFiles. apply nested_pdf_member.
    unfold pdf_own_members. solve_elem_of.
  - apply barcode_entry_exact.
  - apply embedded_file_entry_exact.
Qed.

(** The format a call writes, if it writes it. *)
Definition format_written (c : Call) : option string :=
  match c with
  | CFormat f => Some f
  | _ => None
  end.

(** A request as a factory hands it out, before any setter call. *)
Definition fresh (r : RenderRequest) : Prop :=
  exists c src, r = RenderHTML c src \/ r = RenderURL c src.

Lemma call_format (c : Call) (r : RenderRequest) :
  format (call c r) =
  match format_written c with Some f => f | None => format r end.
Proof. destruct c; reflexivity. Qed.

Lemma chain_format_kept (cs : list Call) (r : RenderRequest) :
  Forall (fun c => format_written c = None) cs ->
  format (chain cs r) = format r.
Proof.
  revert r. induction cs as [|c cs IH]; intros r Hcs; [reflexivity|].
  inversion Hcs as [|? ? Hc Hrest]; subst.
  rewrite chain_cons, IH by assumption.
  rewrite call_format, Hc. reflexivity.
Qed.

Lemma fresh_format (r : RenderRequest) : fresh r -> format r = "".
Proof. intros (c & src & [-> | ->]); reflexivity. Qed.

Lemma Format_same (r : RenderRequest) : Format (format r) r = r.
Proof. destruct r; reflexivity. Qed.

Lemma buildPayload_format (r : RenderRequest) :
  buildPayload r !! "format" =
  Some (VString (if String.eqb (format r) "" then "pdf" else format r)).
Proof. apply buildPayload_lookup. unfold payload_entries. solve_elem_of. Qed.

(** C10. [Format("")] cannot be told from no call of [Format]: on a
    request whose earlier calls include no [Format], inserting
    [Format("")] anywhere leaves the very same request state, whatever
    calls follow; and with or without it the payload's format is ["pdf"]
    as long as no later call sets another one. *)
Theorem Format_empty_is_no_call (start : RenderRequest)
    (before after : list Call) :
  fresh start ->
  Forall (fun c => format_written c = None) before ->
  chain (before ++ CFormat "" :: after) start = chain (before ++ after) start /\
  (Forall (fun c => format_written c = None) after ->
   buildPayload (chain (before ++ CFormat "" :: after) start) !! "format"
     = Some (VString "pdf") /\
   buildPayload (chain (before ++ after) start) !! "format"
     = Some (VString "pdf")).
Proof.
  intros Hfresh Hbefore.
  assert (Hfmt : format (chain before start) = "").
  { rewrite chain_format_kept by assumption. apply fresh_format, Hfresh. }
  assert (Heq : chain (before ++ CFormat "" :: after) start =
                chain (before ++ after) start).
  { rewrite !chain_app, chain_cons. f_equal. simpl.
    rewrite <- Hfmt at 1. apply Format_same. }
  split; [exact Heq|].
  intros Hafter. rewrite Heq. split; rewrite buildPayload_format;
    rewrite chain_app, chain_format_kept, Hfmt by assumption; reflexivity.
Qed.

End Payload.

(** ** Base address normalisation *)

(** [n] path separators. *)
Fixpoint slashes (n : nat) : string :=
  match n with
  | O => ""
  | S n => String "/"%char (slashes n)
  end.

Lemma append_cons (c : ascii) (s t : string) :
  String c s +:+ t = String c (s +:+ t).
Proof. reflexivity. Qed.

Lemma length_append (s t : string) :
  String.length (s +:+ t) = String.length s + String.length t.
Proof.
  induction s as [|c s IH]; [reflexivity|].
  rewrite append_cons. simpl. rewrite IH. reflexivity.
Qed.

Lemma append_nil_r (s : string) : s +:+ "" = s.
Proof.
  induction s as [|c s IH]; [reflexivity|].
  rewrite append_cons, IH. reflexivity.
Qed.

Lemma append_assoc (s t u : string) : (s +:+ t) +:+ u = s +:+ (t +:+ u).
Proof.
  induction s as [|c s IH]; [reflexivity|].
  rewrite !append_cons, IH. reflexivity.
Qed.

Lemma get_append_end (s t : string) (c : ascii) :
  String.get (String.length s) (s +:+ String c t) = Some c.
Proof.
  induction s as [|d s IH]; [reflexivity|].
  rewrite append_cons. simpl. exact IH.
Qed.

Lemma substring_append_prefix (s t : string) :
  String.substring 0 (String.length s) (s +:+ t) = s.
Proof.
  induction s as [|c s IH].
  - destruct t; reflexivity.
  - rewrite append_cons. simpl. rewrite IH. reflexivity.
Qed.

Lemma split_last_cons (s : string) (c : ascii) :
  forall d : ascii,
    String.get (String.length s) (String d s) = Some c ->
    String d s = String.substring 0 (String.length s) (String d s) +:+ String c "".
Proof.
  induction s as [|e s IH]; intros d Hget.
  - simpl in Hget. injection Hget as ->. reflexivity.
  - change (String.get (String.length s) (String e s) = Some c) in Hget.
    change (String.substring 0 (String.length (String e s)) (String d (String e s)))
      with (String d (String.substring 0 (String.length s) (String e s))).
    rewrite append_cons. f_equal. apply IH, Hget.
Qed.

Lemma split_last (s : string) (c : ascii) :
  String.get (String.length s - 1) s = Some c ->
  (0 < String.length s)%nat ->
  s = String.substring 0 (String.length s - 1) s +:+ String c "".
Proof.
  destruct s as [|d s]; intros Hget Hlen; [simpl in Hlen; lia|].
  replace (String.length (String d s) - 1) with (String.length s) in *
    by (simpl; lia).
  apply split_last_cons, Hget.
Qed.

Lemma slashes_snoc (n : nat) : slashes (S n) = slashes n +:+ "/".
Proof.
  induction n as [|n IH]; [reflexivity|].
  change (String "/"%char (slashes (S n)) =
          String "/"%char (slashes n +:+ "/")).
  rewrite IH. reflexivity.
Qed.

Lemma has_trailing_slash_snoc (s : string) :
  has_trailing_slash (s +:+ "/") = true.
Proof.
  unfold has_trailing_slash. rewrite length_append. simpl.
  replace (String.length s + 1 - 1) with (String.length s) by lia.
  rewrite get_append_end.
  rewrite bool_decide_eq_true_2 by reflexivity.
  rewrite andb_true_r. apply Nat.ltb_lt. lia.
Qed.

Lemma has_trailing_slash_split (s : string) :
  has_trailing_slash s = true ->
  s = String.substring 0 (String.length s - 1) s +:+ "/".
Proof.
  unfold has_trailing_slash. intros H.
  apply andb_prop in H as [Hlen Hget].
  apply Nat.ltb_lt in Hlen. apply bool_decide_eq_true_1 in Hget.
  apply split_last; assumption.
Qed.

(** One turn of the loop. *)
Lemma strip_trailing_slashes_step (s : string) :
  strip_trailing_slashes s =
  if has_trailing_slash s
  then strip_trailing_slashes (String.substring 0 (String.length s - 1) s)
  else s.
Proof.
  funelim (strip_trailing_slashes s).
  - rewrite Hcond. reflexivity.
  - rewrite e. reflexivity.
Qed.

Lemma strip_trailing_slashes_snoc (s : string) :
  strip_trailing_slashes (s +:+ "/") = strip_trailing_slashes s.
Proof.
  rewrite (strip_trailing_slashes_step (s +:+ "/")).
  rewrite has_trailing_slash_snoc, length_append. simpl.
  replace (String.length s + 1 - 1) with (String.length s) by lia.
  rewrite substring_append_prefix. reflexivity.
Qed.

Lemma strip_trailing_slashes_slashes (s : string) (n : nat) :
  strip_trailing_slashes (s +:+ slashes n) = strip_trailing_slashes s.
Proof.
  induction n as [|n IH].
  - simpl. rewrite append_nil_r. reflexivity.
  - rewrite slashes_snoc, <- append_assoc, strip_trailing_slashes_snoc.
    exact IH.
Qed.

(** The loop ends, and ends on a string without a trailing separator that
    differs from its input by trailing separators only. *)
Lemma strip_trailing_slashes_spec (s : string) :
  has_trailing_slash (strip_trailing_slashes s) = false /\
  exists n, s = strip_trailing_slashes s +:+ slashes n.
Proof.
  funelim (strip_trailing_slashes s).
  - match goal with IH : _ /\ _ |- _ => destruct IH as [Hno [n Hn]] end.
    split; [exact Hno|].
    exists (S n). rewrite slashes_snoc, <- append_assoc, <- Hn.
    apply has_trailing_slash_split, Hcond.
  - split; [exact e|]. exists 0. simpl. rewrite append_nil_r. reflexivity.
Qed.

Lemma no_trailing_slash_not_snoc (s : string) :
  has_trailing_slash s = false -> forall t, s <> t +:+ "/".
Proof.
  intros H t ->. rewrite has_trailing_slash_snoc in H. discriminate.
Qed.

Lemma append_inj_l (s1 s2 u : string) : s1 +:+ u = s2 +:+ u -> s1 = s2.
Proof.
  intros H.
  assert (Hlen : String.length s1 = String.length s2).
  { apply (f_equal String.length) in H. rewrite !length_append in H. lia. }
  rewrite <- (substring_append_prefix s1 u), H, Hlen.
  apply substring_append_prefix.
Qed.

Section Exchange.

Context `{rt : GoRuntime}.

(** An option of this package leaves the base address alone. *)
Definition keeps_baseURL (o : Option) : Prop :=
  forall c, baseURL (o c) = baseURL c.

Lemma WithTimeout_keeps_baseURL (d : Z) : keeps_baseURL (WithTimeout d).
Proof. intros c. reflexivity. Qed.

Lemma WithHTTPClient_keeps_baseURL (hc : http.Client context_Context) :
  keeps_baseURL (WithHTTPClient hc).
Proof. intros c. reflexivity. Qed.

Lemma foldl_keeps_baseURL (opts : list Option) (c : Client) :
  Forall keeps_baseURL opts ->
  baseURL (foldl (fun c o => o c) c opts) = baseURL c.
Proof.
  revert c. induction opts as [|o opts IH]; intros c Hopts; [reflexivity|].
  inversion Hopts as [|? ? Ho Hrest]; subst. simpl.
  rewrite IH by assumption. apply Ho.
Qed.

Lemma NewClient_baseURL (base : string) (opts : list Option) :
  Forall keeps_baseURL opts ->
  baseURL (NewClient base opts) = strip_trailing_slashes base.
Proof. intros Hopts. unfold NewClient. apply foldl_keeps_baseURL, Hopts. Qed.

(** C8. [NewClient] removes every trailing ['/'] of the base address and
    nothing else, so the stored address never ends in a separator, the
    /render and /health addresses never hold a doubled separator at the
    joint, and a base address written with any number of trailing
    separators gives the same two addresses as the one written with
    none. *)
Theorem base_address_normalised (base : string) (opts : list Option) :
  Forall keeps_baseURL opts ->
  let c := NewClient base opts in
  has_trailing_slash (baseURL c) = false /\
  (exists n, base = baseURL c +:+ slashes n) /\
  (forall t, render_url c <> t +:+ "//render" /\
             health_url c <> t +:+ "//health") /\
  (forall n opts', Forall keeps_baseURL opts' ->
     render_url (NewClient (base +:+ slashes n) opts') = render_url c /\
     health_url (NewClient (base +:+ slashes n) opts') = health_url c).
Proof.
  intros Hopts c.
  assert (Hc : baseURL c = strip_trailing_slashes base)
    by (apply NewClient_baseURL, Hopts).
  destruct (strip_trailing_slashes_spec base) as [Hno Hsl].
  split; [rewrite Hc; exact Hno|].
  split; [rewrite Hc; exact Hsl|].
  split.
  - intros t. unfold render_url, health_url. rewrite Hc.
    split; intros Heq.
    + change (t +:+ "//render") with (t +:+ ("/" +:+ "/render")) in Heq.
      rewrite <- append_assoc in Heq. apply append_inj_l in Heq.
      exact (no_trailing_slash_not_snoc _ Hno t Heq).
    + change (t +:+ "//health") with (t +:+ ("/" +:+ "/health")) in Heq.
      rewrite <- append_assoc in Heq. apply append_inj_l in Heq.
      exact (no_trailing_slash_not_snoc _ Hno t Heq).
  - intros n opts' Hopts'. unfold render_url, health_url.
    rewrite Hc, NewClient_baseURL, strip_trailing_slashes_slashes
      by assumption.
    split; reflexivity.
Qed.

(** ** Outcomes of [Send] and [Health] *)

(** The message of a server error: the decoded [error] member when the
    body decodes and the member is not empty, the status line otherwise. *)
Definition resolved_message (status : Z) (data : list Byte.byte) : string :=
  match json_Unmarshal_errResp data with
  | Ok msg => if String.eqb msg "" then "HTTP " +:+ itoa status else msg
  | Err _ => "HTTP " +:+ itoa status
  end.

(** What [Send] returns once the exchange has produced its outcome. *)
Lemma Send_after_exchange (ctx : context_Context) (r : RenderRequest)
    (body : list Byte.byte) (req : http.Request context_Context) :
  json_Marshal (buildPayload r) = Ok body ->
  http_NewRequestWithContext ctx http.MethodPost (render_url (client r))
    (Some body) = Ok req ->
  Send ctx r =
  match http_Client_Do (httpClient (client r))
          (Request_Header_Set "Content-Type" "application/json" req) with
  | Err cause => (None, Some (ConnectionError cause))
  | Ok resp =>
      match io_ReadAll (http.Body resp) with
      | (_, Some err) => (None, Some (Errorf_w "forge: read body" err))
      | (data, None) =>
          if (http.StatusCode resp =? http.StatusOK)%Z
          then (Some data, None)
          else (None, Some (ServerError (http.StatusCode resp)
                              (resolved_message (http.StatusCode resp) data)))
      end
  end.
Proof.
  intros Hm Hr. unfold Send. rewrite Hm, Hr.
  destruct (http_Client_Do _ _) as [resp|cause]; [|reflexivity].
  destruct (io_ReadAll (http.Body resp)) as [data [err|]]; [reflexivity|].
  unfold resolved_message.
  destruct (http.StatusCode resp =? http.StatusOK)%Z; simpl; [reflexivity|].
  destruct (json_Unmarshal_errResp data) as [msg|e]; [|reflexivity].
  destruct (String.eqb msg ""); reflexivity.
Qed.

(** C2, as amended. For a response whose body is read to its end: on
    status 200 [Send] returns the body bytes as read and no error; on
    any other status it returns no bytes and a [ServerError] with that
    status whose message is the decoded [error] member when the body
    decodes and the member is not empty, and ["HTTP <status>"]
    otherwise. For a response whose body fails to be read, [Send]
    returns no bytes and the read failure wrapped as
    ["forge: read body"], whatever the status. *)
Theorem Send_response_classified (ctx : context_Context) (r : RenderRequest)
    (body : list Byte.byte) (req : http.Request context_Context)
    (resp : http.Response) :
  json_Marshal (buildPayload r) = Ok body ->
  http_NewRequestWithContext ctx http.MethodPost (render_url (client r))
    (Some body) = Ok req ->
  http_Client_Do (httpClient (client r))
    (Request_Header_Set "Content-Type" "application/json" req) = Ok resp ->
  let status := http.StatusCode resp in
  (forall data, io_ReadAll (http.Body resp) = (data, None) ->
     (status = 200%Z -> Send ctx r = (Some data, None)) /\
     (status <> 200%Z ->
        (forall msg, json_Unmarshal_errResp data = Ok msg -> msg <> "" ->
           Send ctx r = (None, Some (ServerError status msg))) /\
        (json_Unmarshal_errResp data = Ok "" \/
         (exists e, json_Unmarshal_errResp data = Err e) ->
           Send ctx r =
           (None, Some (ServerError status ("HTTP " +:+ itoa status)))))) /\
  (forall partial err, io_ReadAll (http.Body resp) = (partial, Some err) ->
     Send ctx r = (None, Some (Errorf_w "forge: read body" err))).
Proof.
  intros Hm Hr Hdo status.
  rewrite (Send_after_exchange ctx r body req Hm Hr), Hdo.
  split.
  - intros data Hread. rewrite Hread. fold status. split.
    + intros ->. reflexivity.
    + intros Hne.
      assert (Hs : (status =? http.StatusOK)%Z = false)
        by (apply Z.eqb_neq; exact Hne).
      rewrite Hs. unfold resolved_message. split.
      * intros msg Hdec Hmsg. rewrite Hdec.
        assert (Hb : String.eqb msg "" = false)
          by (apply String.eqb_neq; exact Hmsg).
        rewrite Hb. reflexivity.
      * intros [Hdec|[e Hdec]]; rewrite Hdec; reflexivity.
  - intros partial err Hread. rewrite Hread. reflexivity.
Qed.

(** C3. When the exchange fails before a response is obtained, [Send]
    returns no bytes and a [ConnectionError] whose cause, also reached
    by [Unwrap], is the failure of the exchange; the error returned is
    not a [ServerError]. *)
Theorem Send_transport_failure (ctx : context_Context) (r : RenderRequest)
    (body : list Byte.byte) (req : http.Request context_Context)
    (cause : error) :
  json_Marshal (buildPayload r) = Ok body ->
  http_NewRequestWithContext ctx http.MethodPost (render_url (client r))
    (Some body) = Ok req ->
  http_Client_Do (httpClient (client r))
    (Request_Header_Set "Content-Type" "application/json" req) = Err cause ->
  exists e,
    Send ctx r = (None, Some e) /\
    e = ConnectionError cause /\
    Unwrap e = Some cause /\
    is_ServerError e = false.
Proof.
  intros Hm Hr Hdo. exists (ConnectionError cause).
  rewrite (Send_after_exchange ctx r body req Hm Hr), Hdo.
  repeat split.
Qed.

(** C9. Once the GET request is built: a failed exchange makes [Health]
    return false with a [ConnectionError] of that failure, which is not a
    [ServerError]; a response makes it return no error, with true on
    status 200 and false on every other status. *)
Theorem Health_classified (ctx : context_Context) (c : Client)
    (req : http.Request context_Context) :
  http_NewRequestWithContext ctx http.MethodGet (health_url c) None = Ok req ->
  (forall cause, http_Client_Do (httpClient c) req = Err cause ->
     Health ctx c = (false, Some (ConnectionError cause)) /\
     is_ServerError (ConnectionError cause) = false) /\
  (forall resp, http_Client_Do (httpClient c) req = Ok resp ->
     (http.StatusCode resp = 200%Z -> Health ctx c = (true, None)) /\
     (http.StatusCode resp <> 200%Z -> Health ctx c = (false, None))).
Proof.
  intros Hr. unfold Health. rewrite Hr. split.
  - intros cause Hdo. rewrite Hdo. split; reflexivity.
  - intros resp Hdo. rewrite Hdo. split.
    + intros ->. reflexivity.
    + intros Hne. apply Z.eqb_neq in Hne. unfold http.StatusOK.
      rewrite Hne. reflexivity.
Qed.

End Exchange.

(** * A test double of the runtime

    As a test of the client sets one up: no real network, a transport
    that answers every request with a canned outcome, an encoder that
    always succeeds, and a decoder that knows the bodies the tests
    serve: an object with the one member [error], or the empty object. *)

Definition dquote : string := String "034"%char "".

Definition errResp_open : string :=
  "{" +:+ dquote +:+ "error" +:+ dquote +:+ ":" +:+ dquote.

Definition errResp_close : string := dquote +:+ "}".

Definition error_body (msg : string) : list Byte.byte :=
  list_byte_of_string (errResp_open +:+ msg +:+ errResp_close).

Definition test_decode (data : list Byte.byte) : result string :=
  let s := string_of_list_byte data in
  let n := String.length s in
  let no := String.length errResp_open in
  let nc := String.length errResp_close in
  if String.eqb s "{}" then Ok ""
  else if (no + nc <=? n)%nat
          && String.eqb (String.substring 0 no s) errResp_open
          && String.eqb (String.substring (n - nc) nc s) errResp_close
  then Ok (String.substring no (n - no - nc) s)
  else Err (ForeignError "invalid character looking for beginning of value").

Definition test_runtime : GoRuntime := {|
  context_Context := unit;
  json_Marshal := fun _ => Ok (list_byte_of_string "{}");
  http_NewRequest_failure := fun _ _ _ => None;
  http_Client_Do := fun hc req =>
    match http.Transport hc with
    | Some round_trip => round_trip req
    | None => Err (ForeignError "dial tcp: connection refused")
    end;
  json_Unmarshal_errResp := test_decode
|}.

#[local] Existing Instance test_runtime.

(** A client of the test runtime whose transport answers [outcome]. *)
Definition test_client (base : string) (outcome : result http.Response)
    : Client :=
  NewClient base [WithHTTPClient (http.mkClient (Some (fun _ => outcome)) 0)].

Definition response (status : Z) (data : list Byte.byte)
    (failure : option error) : http.Response :=
  http.mkResponse status (http.mkReader data failure).

Definition test_request (outcome : result http.Response) : RenderRequest :=
  RenderHTML (test_client "http://host:3000/" outcome) "<h1>Hi</h1>".

Definition test_post : http.Request unit :=
  http.mkRequest tt "POST" "http://host:3000/render" ∅
                 (Some (list_byte_of_string "{}")).

Definition test_get : http.Request unit :=
  http.mkRequest tt "GET" "http://host:3000/health" ∅ None.

Example itoa_422 : itoa 422 = "422".
Proof. reflexivity. Qed.

Example test_decode_error :
  test_decode (error_body "bad paper size") = Ok "bad paper size".
Proof. vm_compute. reflexivity. Qed.

Example TestTrailingSlash :
  baseURL (NewClient "http://localhost:3000/" []) = "http://localhost:3000".
Proof. vm_compute. reflexivity. Qed.

Example TestPdfPartialOptions :
  let c := NewClient "http://localhost:3000" [] in
  let r := PdfBookmarks false (PdfTitle "My Title" (RenderHTML c "<h1>Test</h1>")) in
  buildPayload r !! "pdf" =
  Some (VObject {[ "title" := VString "My Title"; "bookmarks" := VBool false ]}).
Proof. vm_compute. reflexivity. Qed.

Example TestQuantizePayload :
  let c := NewClient "http://localhost:3000" [] in
  let r := chain [CFormat types.FormatPNG; CColors 16;
                  CPalette types.PaletteAuto;
                  CDither types.DitherFloydSteinberg]
                 (RenderHTML c "<p>test</p>") in
  buildPayload r !! "quantize" =
  Some (VObject {[ "colors" := VInt 16; "palette" := VString "auto";
                   "dither" := VString "floyd-steinberg" ]}) /\
  buildPayload r !! "format" = Some (VString "png") /\
  buildPayload r !! "pdf" = None.
Proof. vm_compute. repeat split. Qed.

Example TestWatermarkPagesOnlyTriggers :
  let c := NewClient "http://localhost:3000" [] in
  let r := PdfWatermarkPages "2-4" (RenderHTML c "<h1>Test</h1>") in
  buildPayload r !! "pdf" =
  Some (VObject {[ "watermark" := VObject {[ "pages" := VString "2-4" ]} ]}).
Proof. vm_compute. reflexivity. Qed.

Example TestMultipleBarcodes :
  let c := NewClient "http://localhost:3000" [] in
  let r := chain [CPdfBarcode types.BarcodeQR "https://example.com";
                  CPdfBarcode types.BarcodeEAN13 "4006381333931"]
                 (RenderHTML c "<h1>Product</h1>") in
  nested "pdf" "barcodes" (buildPayload r) =
  Some (VObjects [ {[ "type" := VString "qr";
                      "data" := VString "https://example.com" ]};
                   {[ "type" := VString "ean13";
                      "data" := VString "4006381333931" ]} ]).
Proof. vm_compute. reflexivity. Qed.

Example Send_success_bytes :
  Send tt (test_request (Ok (response 200 (list_byte_of_string "%PDF-1.7") None)))
  = (Some (list_byte_of_string "%PDF-1.7"), None).
Proof. vm_compute. reflexivity. Qed.

Example Send_unparsable_422 :
  Send tt (test_request (Ok (response 422 (list_byte_of_string "oops") None)))
  = (None, Some (ServerError 422 "HTTP 422")).
Proof. vm_compute. reflexivity. Qed.

(** C2, as stated, fails: a response with status 200 whose body breaks
    off while it is read makes [Send] return an error and no bytes, and
    one with status 500 whose body breaks off makes it return an error
    that is not a [ServerError]. *)
Lemma Send_read_failure_counterexample :
  let eof := ForeignError "unexpected EOF" in
  let ok := response 200 (list_byte_of_string "%PDF") (Some eof) in
  let ko := response 500 (list_byte_of_string "{") (Some eof) in
  (http_Client_Do (httpClient (client (test_request (Ok ok))))
     (Request_Header_Set "Content-Type" "application/json" test_post) = Ok ok /\
   http.StatusCode ok = http.StatusOK /\
   Send tt (test_request (Ok ok)) =
     (None, Some (Errorf_w "forge: read body" eof))) /\
  (http_Client_Do (httpClient (client (test_request (Ok ko))))
     (Request_Header_Set "Content-Type" "application/json" test_post) = Ok ko /\
   http.StatusCode ko <> http.StatusOK /\
   Send tt (test_request (Ok ko)) =
     (None, Some (Errorf_w "forge: read body" eof)) /\
   is_ServerError (Errorf_w "forge: read body" eof) = false).
Proof.
  intros eof ok ko. split.
  - split; [reflexivity|]. split; [reflexivity|]. vm_compute. reflexivity.
  - split; [reflexivity|]. split; [discriminate|].
    split; [vm_compute; reflexivity|reflexivity].
Qed.

(** * The theorems at work on the test double *)

(** The test of the spec: status 422 with an [error] member in the body. *)
Lemma Send_response_classified_witness :
  let resp := response 422 (error_body "bad paper size") None in
  let r := test_request (Ok resp) in
  json_Marshal (buildPayload r) = Ok (list_byte_of_string "{}") /\
  http_NewRequestWithContext tt http.MethodPost (render_url (client r))
    (Some (list_byte_of_string "{}")) = Ok test_post /\
  http_Client_Do (httpClient (client r))
    (Request_Header_Set "Content-Type" "application/json" test_post) = Ok resp /\
  Send tt r = (None, Some (ServerError 422 "bad paper size")).
Proof.
  intros resp r.
  assert (H1 : json_Marshal (buildPayload r) = Ok (list_byte_of_string "{}"))
    by reflexivity.
  assert (H2 : http_NewRequestWithContext tt http.MethodPost
                 (render_url (client r)) (Some (list_byte_of_string "{}"))
               = Ok test_post)
    by (vm_compute; reflexivity).
  assert (H3 : http_Client_Do (httpClient (client r))
                 (Request_Header_Set "Content-Type" "application/json"
                    test_post) = Ok resp)
    by reflexivity.
  split; [exact H1|]. split; [exact H2|]. split; [exact H3|].
  destruct (Send_response_classified (rt := test_runtime) tt r _ _ resp
              H1 H2 H3) as [Hread _].
  destruct (Hread (error_body "bad paper size") eq_refl) as [_ Hne].
  destruct (Hne ltac:(discriminate)) as [Hmsg _].
  apply (Hmsg "bad paper size"); [vm_compute; reflexivity|discriminate].
Defined.

(** A refused connection. *)
Lemma Send_transport_failure_witness :
  let refused := ForeignError "dial tcp 127.0.0.1:3000: connection refused" in
  let r := test_request (Err refused) in
  json_Marshal (buildPayload r) = Ok (list_byte_of_string "{}") /\
  http_NewRequestWithContext tt http.MethodPost (render_url (client r))
    (Some (list_byte_of_string "{}")) = Ok test_post /\
  http_Client_Do (httpClient (client r))
    (Request_Header_Set "Content-Type" "application/json" test_post)
    = Err refused /\
  Send tt r = (None, Some (ConnectionError refused)).
Proof.
  intros refused r.
  assert (H1 : json_Marshal (buildPayload r) = Ok (list_byte_of_string "{}"))
    by reflexivity.
  assert (H2 : http_NewRequestWithContext tt http.MethodPost
                 (render_url (client r)) (Some (list_byte_of_string "{}"))
               = Ok test_post)
    by (vm_compute; reflexivity).
  assert (H3 : http_Client_Do (httpClient (client r))
                 (Request_Header_Set "Content-Type" "application/json"
                    test_post) = Err refused)
    by reflexivity.
  split; [exact H1|]. split; [exact H2|]. split; [exact H3|].
  destruct (Send_transport_failure (rt := test_runtime) tt r _ _ refused
              H1 H2 H3)
    as (e & Hsend & -> & _).
  exact Hsend.
Defined.

(** A server that answers 503 is not healthy, and that is no error. *)
Lemma Health_classified_witness :
  let c := test_client "http://host:3000/" (Ok (response 503 [] None)) in
  http_NewRequestWithContext tt http.MethodGet (health_url c) None
    = Ok test_get /\
  Health tt c = (false, None).
Proof.
  intros c.
  assert (H1 : http_NewRequestWithContext tt http.MethodGet (health_url c)
                 None = Ok test_get)
    by (vm_compute; reflexivity).
  split; [exact H1|].
  destruct (Health_classified (rt := test_runtime) tt c test_get H1)
    as [_ Hresp].
  destruct (Hresp (response 503 [] None) eq_refl) as [_ Hne].
  apply Hne. discriminate.
Defined.

(** A preset then a custom palette, and a custom palette then a preset. *)
Lemma palette_last_call_wins_witness :
  let r0 := RenderHTML (NewClient "http://localhost:3000" []) "<p>test</p>" in
  let custom := ["#000000"; "#ffffff"; "#ff0000"] in
  Forall (fun c => palette_written c = None) [CDither types.DitherAtkinson] /\
  nested "quantize" "palette"
    (buildPayload
       (chain ([CPalette types.PaletteAuto] ++
               CCustomPalette custom :: [CDither types.DitherAtkinson]) r0))
  = Some (VStrings custom) /\
  nested "quantize" "palette"
    (buildPayload
       (chain ([CCustomPalette custom] ++
               CPalette types.PaletteEink :: [CDither types.DitherAtkinson]) r0))
  = Some (VString "eink").
Proof.
  intros r0 custom.
  assert (H : Forall (fun c => palette_written c = None)
                     [CDither types.DitherAtkinson])
    by (repeat constructor).
  split; [exact H|]. split.
  - destruct (palette_last_call_wins r0 [CPalette types.PaletteAuto] _ H)
      as [_ Hcustom].
    apply Hcustom.
  - destruct (palette_last_call_wins r0 [CCustomPalette custom] _ H)
      as [Hpreset _].
    apply Hpreset.
Defined.

(** The base address written with and without its trailing separator. *)
Lemma base_address_normalised_witness :
  let opts := [WithTimeout (5 * time_Second)] in
  Forall keeps_baseURL opts /\
  render_url (NewClient "http://host:3000/" []) =
    render_url (NewClient "http://host:3000" opts) /\
  health_url (NewClient "http://host:3000/" []) =
    health_url (NewClient "http://host:3000" opts).
Proof.
  intros opts.
  assert (H : Forall keeps_baseURL opts).
  { repeat constructor. }
  split; [exact H|].
  destruct (base_address_normalised "http://host:3000" opts H)
    as (_ & _ & _ & Hsame).
  exact (Hsame 1 [] (List.Forall_nil _)).
Defined.

(** [Format("")] between two layout calls. *)
Lemma Format_empty_is_no_call_witness :
  let start := RenderURL (NewClient "http://localhost:3000" [])
                         "https://example.com" in
  fresh start /\
  Forall (fun c => format_written c = None) [CWidth 1280] /\
  chain ([CWidth 1280] ++ CFormat "" :: [CHeight 800]) start =
    chain ([CWidth 1280] ++ [CHeight 800]) start /\
  buildPayload (chain ([CWidth 1280] ++ CFormat "" :: [CHeight 800]) start)
    !! "format" = Some (VString "pdf").
Proof.
  intros start.
  assert (H1 : fresh start).
  { eexists _, _. right. reflexivity. }
  assert (H2 : Forall (fun c => format_written c = None) [CWidth 1280])
    by (repeat constructor).
  split; [exact H1|]. split; [exact H2|].
  destruct (Format_empty_is_no_call start [CWidth 1280] [CHeight 800] H1 H2)
    as [Hsame Hpdf].
  split; [exact Hsame|].
  apply Hpdf. repeat constructor.
Defined.

(** * Further properties of the builder and of the exchange *)

Section Builder.

Context `{rt : GoRuntime}.

(** ** Which field a setter writes *)

(** The field of [RenderRequest] a call assigns to. *)
Definition slot (c : Call) : string :=
  match c with
  | CFormat _ => "format"
  | CWidth _ => "width"
  | CHeight _ => "height"
  | CPaper _ => "paper"
  | COrientation _ => "orientation"
  | CMargins _ => "margins"
  | CFlow _ => "flow"
  | CDensity _ => "density"
  | CBackground _ => "background"
  | CTimeout _ => "timeout"
  | CColors _ => "colors"
  | CPalette _ => "palette"
  | CCustomPalette _ => "palette"
  | CDither _ => "dither"
  | CPdfTitle _ => "pdfTitle"
  | CPdfAuthor _ => "pdfAuthor"
  | CPdfSubject _ => "pdfSubject"
  | CPdfKeywords _ => "pdfKeywords"
  | CPdfCreator _ => "pdfCreator"
  | CPdfBookmarks _ => "pdfBookmarks"
  | CPdfPageNumbers _ => "pdfPageNumbers"
  | CPdfWatermarkText _ => "pdfWatermarkText"
  | CPdfWatermarkImage _ => "pdfWatermarkImage"
  | CPdfWatermarkOpacity _ => "pdfWatermarkOpacity"
  | CPdfWatermarkRotation _ => "pdfWatermarkRotation"
  | CPdfWatermarkColor _ => "pdfWatermarkColor"
  | CPdfWatermarkFontSize _ => "pdfWatermarkFontSize"
  | CPdfWatermarkScale _ => "pdfWatermarkScale"
  | CPdfWatermarkLayer _ => "pdfWatermarkLayer"
  | CPdfStandard _ => "pdfStandard"
  | CPdfAttach _ _ _ => "pdfEmbeddedFiles"
  | CPdfWatermarkPages _ => "pdfWatermarkPages"
  | CPdfBarcode _ _ => "pdfBarcodes"
  | CPdfBarcodeWith _ => "pdfBarcodes"
  | CPdfMode _ => "pdfMode"
  | CPdfSignCertificate _ => "pdfSignCertificate"
  | CPdfSignPassword _ => "pdfSignPassword"
  | CPdfSignName _ => "pdfSignName"
  | CPdfSignReason _ => "pdfSignReason"
  | CPdfSignLocation _ => "pdfSignLocation"
  | CPdfSignTimestampUrl _ => "pdfSignTimestampUrl"
  | CPdfUserPassword _ => "pdfUserPassword"
  | CPdfOwnerPassword _ => "pdfOwnerPassword"
  | CPdfPermissions _ => "pdfPermissions"
  | CPdfAccessibility _ => "pdfAccessibility"
  | CPdfLinearize _ => "pdfLinearize"
  end.

(** The two repeatable fields are appended to; every other field is
    overwritten. *)
Definition appends (c : Call) : bool :=
  String.eqb (slot c) "pdfEmbeddedFiles" || String.eqb (slot c) "pdfBarcodes".

Ltac by_slots H :=
  first [reflexivity | exfalso; apply H; reflexivity | discriminate H].

Lemma call_commute (c1 c2 : Call) (r : RenderRequest) :
  slot c1 <> slot c2 -> call c2 (call c1 r) = call c1 (call c2 r).
Proof. intros H. destruct c1, c2; by_slots H. Qed.

Lemma call_overwrite (c1 c2 : Call) (r : RenderRequest) :
  slot c1 = slot c2 -> appends c2 = false -> call c2 (call c1 r) = call c2 r.
Proof.
  intros H Ha. destruct c1, c2;
    first [reflexivity | discriminate H | discriminate Ha].
Qed.

Lemma appends_slot (c1 c2 : Call) :
  slot c1 = slot c2 -> appends c1 = appends c2.
Proof. unfold appends. intros ->. reflexivity. Qed.

(** X1. Two adjacent calls that write different fields can be swapped
    anywhere in a chain: the request, and so its payload, is the same. *)
Theorem calls_on_different_fields_commute (r : RenderRequest)
    (before after : list Call) (c1 c2 : Call) :
  slot c1 <> slot c2 ->
  chain (before ++ c1 :: c2 :: after) r = chain (before ++ c2 :: c1 :: after) r /\
  buildPayload (chain (before ++ c1 :: c2 :: after) r) =
  buildPayload (chain (before ++ c2 :: c1 :: after) r).
Proof.
  intros Hs.
  assert (Heq : chain (before ++ c1 :: c2 :: after) r =
                chain (before ++ c2 :: c1 :: after) r).
  { rewrite !chain_app, !chain_cons. f_equal. apply call_commute, Hs. }
  split; [exact Heq|]. rewrite Heq. reflexivity.
Qed.

(** X2. Every setter but the two appending ones is last-write-wins: a
    call is without any effect on the final request when a later call of
    the chain writes the same field, whatever calls lie between and
    around them. *)
Theorem overwritten_call_is_dead (r : RenderRequest)
    (before between after : list Call) (c1 c2 : Call) :
  slot c1 = slot c2 -> appends c2 = false ->
  chain (before ++ c1 :: between ++ c2 :: after) r =
  chain (before ++ between ++ c2 :: after) r.
Proof.
  intros Hs Ha. revert before.
  induction between as [|m between IH]; intros before.
  - simpl. rewrite !chain_app, !chain_cons. f_equal.
    apply call_overwrite; assumption.
  - destruct (decide (slot c1 = slot m)) as [Hm|Hm].
    + simpl. rewrite !chain_app, !chain_cons. f_equal.
      apply call_overwrite; [exact Hm|].
      rewrite (appends_slot m c2) by congruence. exact Ha.
    + replace (before ++ c1 :: (m :: between) ++ c2 :: after)
        with (before ++ c1 :: m :: between ++ c2 :: after) by reflexivity.
      transitivity (chain ((before ++ [m]) ++ c1 :: between ++ c2 :: after) r).
      * rewrite <- app_assoc. simpl.
        rewrite !chain_app, !chain_cons. f_equal. apply call_commute, Hm.
      * rewrite IH, <- app_assoc. reflexivity.
Qed.

(** ** What no setter touches *)

Lemma call_keeps_source (c : Call) (r : RenderRequest) :
  client (call c r) = client r /\ html (call c r) = html r /\
  url (call c r) = url r.
Proof. destruct c; repeat split. Qed.

Lemma chain_keeps_source (cs : list Call) (r : RenderRequest) :
  client (chain cs r) = client r /\ html (chain cs r) = html r /\
  url (chain cs r) = url r.
Proof.
  revert r. induction cs as [|c cs IH]; intros r; [repeat split|].
  rewrite chain_cons.
  destruct (IH (call c r)) as (Hc & Hh & Hu).
  destruct (call_keeps_source c r) as (Hc' & Hh' & Hu').
  rewrite Hc, Hh, Hu, Hc', Hh', Hu'. repeat split.
Qed.

(** X3. No setter changes the source or the client. Whatever chain of
    calls follows a factory, the payload holds exactly one source, the
    one the factory was given ([html] and no [url] after [RenderHTML],
    [url] and no [html] after [RenderURL]), and the request is still
    bound to the client it was made from. *)
Theorem source_and_client_are_fixed (c : Client) (src : string)
    (cs : list Call) :
  (buildPayload (chain cs (RenderHTML c src)) !! "html" = Some (VString src) /\
   buildPayload (chain cs (RenderHTML c src)) !! "url" = None /\
   client (chain cs (RenderHTML c src)) = c) /\
  (buildPayload (chain cs (RenderURL c src)) !! "url" = Some (VString src) /\
   buildPayload (chain cs (RenderURL c src)) !! "html" = None /\
   client (chain cs (RenderURL c src)) = c).
Proof.
  split.
  - destruct (chain_keeps_source cs (RenderHTML c src)) as (Hc & Hh & Hu).
    split; [|split; [|exact Hc]].
    + rewrite (buildPayload_lookup _ "html" (VString <$> html (chain cs (RenderHTML c src))))
        by (unfold payload_entries; solve_elem_of).
      rewrite Hh. reflexivity.
    + rewrite (buildPayload_lookup _ "url" (VString <$> url (chain cs (RenderHTML c src))))
        by (unfold payload_entries; solve_elem_of).
      rewrite Hu. reflexivity.
  - destruct (chain_keeps_source cs (RenderURL c src)) as (Hc & Hh & Hu).
    split; [|split; [|exact Hc]].
    + rewrite (buildPayload_lookup _ "url" (VString <$> url (chain cs (RenderURL c src))))
        by (unfold payload_entries; solve_elem_of).
      rewrite Hu. reflexivity.
    + rewrite (buildPayload_lookup _ "html" (VString <$> html (chain cs (RenderURL c src))))
        by (unfold payload_entries; solve_elem_of).
      rewrite Hh. reflexivity.
Qed.

(** ** The top level of the payload *)

(** The source and the flat layout members, by wire key. *)
Definition top_level_members (r : RenderRequest) : members :=
  [("html", VString <$> html r);
   ("url", VString <$> url r);
   ("width", VInt <$> width r);
   ("height", VInt <$> height r);
   ("paper", VString <$> paper r);
   ("orientation", VString <$> orientation r);
   ("margins", VString <$> margins r);
   ("flow", VString <$> flow r);
   ("density", VFloat <$> density r);
   ("background", VString <$> background r);
   ("timeout", VInt <$> timeout r)].

Lemma top_level_in_entries (r : RenderRequest) (k : string) (o : option value) :
  (k, o) ∈ top_level_members r -> (k, o) ∈ payload_entries r.
Proof.
  unfold top_level_members, payload_entries. rewrite !elem_of_cons. tauto.
Qed.

(** X4. At its top level the payload binds the source and each flat
    layout member to its value when set and not at all when unset; it
    always binds [format], to a string that is never empty (the field
    when not empty, ["pdf"] otherwise); and besides these and the two
    group keys it binds nothing. *)
Theorem payload_top_level (r : RenderRequest) :
  let p := buildPayload r in
  (forall k o, (k, o) ∈ top_level_members r -> p !! k = o) /\
  (exists f, p !! "format" = Some (VString f) /\ f <> "" /\
             (format r <> "" -> f = format r) /\
             (format r = "" -> f = "pdf")) /\
  (forall k, k ∉ (top_level_members r).*1 ->
             k ∉ ["format"; "quantize"; "pdf"] -> p !! k = None).
Proof.
  intros p. subst p. split; [|split].
  - intros k o Hin. apply buildPayload_lookup, top_level_in_entries, Hin.
  - rewrite buildPayload_format.
    destruct (String.eqb_spec (format r) "") as [He|Hne].
    + exists "pdf". repeat split; try discriminate. congruence.
    + exists (format r). repeat split; auto. congruence.
  - intros k Htop Hrest. rewrite buildPayload_collect.
    apply collect_absent. revert Htop Hrest.
    unfold top_level_members, payload_entries. simpl.
    rewrite !elem_of_cons. tauto.
Qed.

(** ** The payload and the client *)

(** The request [r] rebound to the client [c]. *)
Definition with_client (c : Client) (r : RenderRequest) : RenderRequest :=
  {| client := c; html := html r; url := url r; format := format r;
     width := width r; height := height r; paper := paper r;
     orientation := orientation r; margins := margins r; flow := flow r;
     density := density r; background := background r; timeout := timeout r;
     colors := colors r; palette := palette r; dither := dither r;
     pdfTitle := pdfTitle r; pdfAuthor := pdfAuthor r;
     pdfSubject := pdfSubject r; pdfKeywords := pdfKeywords r;
     pdfCreator := pdfCreator r; pdfBookmarks := pdfBookmarks r;
     pdfPageNumbers := pdfPageNumbers r;
     pdfWatermarkText := pdfWatermarkText r;
     pdfWatermarkImage := pdfWatermarkImage r;
     pdfWatermarkOpacity := pdfWatermarkOpacity r;
     pdfWatermarkRotation := pdfWatermarkRotation r;
     pdfWatermarkColor := pdfWatermarkColor r;
     pdfWatermarkFontSize := pdfWatermarkFontSize r;
     pdfWatermarkScale := pdfWatermarkScale r;
     pdfWatermarkLayer := pdfWatermarkLayer r;
     pdfWatermarkPages := pdfWatermarkPages r; pdfStandard := pdfStandard r;
     pdfEmbeddedFiles := pdfEmbeddedFiles r; pdfBarcodes := pdfBarcodes r;
     pdfMode := pdfMode r; pdfSignCertificate := pdfSignCertificate r;
     pdfSignPassword := pdfSignPassword r; pdfSignName := pdfSignName r;
     pdfSignReason := pdfSignReason r; pdfSignLocation := pdfSignLocation r;
     pdfSignTimestampUrl := pdfSignTimestampUrl r;
     pdfUserPassword := pdfUserPassword r;
     pdfOwnerPassword := pdfOwnerPassword r;
     pdfPermissions := pdfPermissions r;
     pdfAccessibility := pdfAccessibility r; pdfLinearize := pdfLinearize r |}.

Lemma call_with_client (k : Call) (c : Client) (r : RenderRequest) :
  call k (with_client c r) = with_client c (call k r).
Proof. destruct k; reflexivity. Qed.

Lemma chain_with_client (cs : list Call) (c : Client) (r : RenderRequest) :
  chain cs (with_client c r) = with_client c (chain cs r).
Proof.
  revert r. induction cs as [|k cs IH]; intros r; [reflexivity|].
  rewrite !chain_cons, call_with_client. apply IH.
Qed.

Lemma buildPayload_with_client (c : Client) (r : RenderRequest) :
  buildPayload (with_client c r) = buildPayload r.
Proof. reflexivity. Qed.

(** X5. The payload is a function of the configuration alone: the same
    source and the same chain of calls give the same payload on any two
    clients, whatever their base address, timeout or transport. *)
Theorem payload_ignores_client (c1 c2 : Client) (src : string)
    (cs : list Call) :
  buildPayload (chain cs (RenderHTML c1 src)) =
  buildPayload (chain cs (RenderHTML c2 src)) /\
  buildPayload (chain cs (RenderURL c1 src)) =
  buildPayload (chain cs (RenderURL c2 src)).
Proof.
  split.
  - change (RenderHTML c1 src) with (with_client c1 (RenderHTML c2 src)).
    rewrite chain_with_client. apply buildPayload_with_client.
  - change (RenderURL c1 src) with (with_client c1 (RenderURL c2 src)).
    rewrite chain_with_client. apply buildPayload_with_client.
Qed.

End Builder.

Section Outcomes.

Context `{rt : GoRuntime}.

(** ** The stages of [Send] *)

(** The request [Send] hands to the HTTP client, for an encoded payload. *)
Definition post_request (ctx : context_Context) (r : RenderRequest)
    (body : list Byte.byte) : http.Request context_Context :=
  http.mkRequest ctx "POST" (baseURL (client r) +:+ "/render")
                 (<["Content-Type" := ["application/json"]]> ∅) (Some body).

(** The request [Health] hands to the HTTP client. *)
Definition get_request (ctx : context_Context) (c : Client)
    : http.Request context_Context :=
  http.mkRequest ctx "GET" (baseURL c +:+ "/health") ∅ None.

(** The stage at which a call of [Send] ended, with what that stage
    produced. *)
Inductive Send_stage (ctx : context_Context) (r : RenderRequest)
    : option (list Byte.byte) * option error -> Prop :=
| stage_marshal (err : error) :
    json_Marshal (buildPayload r) = Err err ->
    Send_stage ctx r (None, Some (Errorf_w "forge: marshal error" err))
| stage_request (body : list Byte.byte) (err : error) :
    json_Marshal (buildPayload r) = Ok body ->
    http_NewRequest_failure ctx "POST" (baseURL (client r) +:+ "/render")
      = Some err ->
    Send_stage ctx r (None, Some (Errorf_w "forge: request error" err))
| stage_exchange (body : list Byte.byte) (cause : error) :
    json_Marshal (buildPayload r) = Ok body ->
    http_NewRequest_failure ctx "POST" (baseURL (client r) +:+ "/render")
      = None ->
    http_Client_Do (httpClient (client r)) (post_request ctx r body)
      = Err cause ->
    Send_stage ctx r (None, Some (ConnectionError cause))
| stage_read (body : list Byte.byte) (resp : http.Response)
    (partial : list Byte.byte) (err : error) :
    json_Marshal (buildPayload r) = Ok body ->
    http_NewRequest_failure ctx "POST" (baseURL (client r) +:+ "/render")
      = None ->
    http_Client_Do (httpClient (client r)) (post_request ctx r body)
      = Ok resp ->
    io_ReadAll (http.Body resp) = (partial, Some err) ->
    Send_stage ctx r (None, Some (Errorf_w "forge: read body" err))
| stage_status (body : list Byte.byte) (resp : http.Response)
    (data : list Byte.byte) :
    json_Marshal (buildPayload r) = Ok body ->
    http_NewRequest_failure ctx "POST" (baseURL (client r) +:+ "/render")
      = None ->
    http_Client_Do (httpClient (client r)) (post_request ctx r body)
      = Ok resp ->
    io_ReadAll (http.Body resp) = (data, None) ->
    http.StatusCode resp <> 200%Z ->
    Send_stage ctx r
      (None, Some (ServerError (http.StatusCode resp)
                     (resolved_message (http.StatusCode resp) data)))
| stage_done (body : list Byte.byte) (resp : http.Response)
    (data : list Byte.byte) :
    json_Marshal (buildPayload r) = Ok body ->
    http_NewRequest_failure ctx "POST" (baseURL (client r) +:+ "/render")
      = None ->
    http_Client_Do (httpClient (client r)) (post_request ctx r body)
      = Ok resp ->
    io_ReadAll (http.Body resp) = (data, None) ->
    http.StatusCode resp = 200%Z ->
    Send_stage ctx r (Some data, None).

(** X6. Every call of [Send] ends at one of six stages, and its result
    is that stage's: the encoding failed, the request could not be built,
    the exchange failed, the body could not be read, the status was not
    200, or all went well. The request of the exchange is a POST to the
    base address followed by /render, with the one header
    Content-Type: application/json and the encoded payload as body. *)
Theorem Send_ends_at_a_stage (ctx : context_Context) (r : RenderRequest) :
  Send_stage ctx r (Send ctx r).
Proof.
  unfold Send, http_NewRequestWithContext, render_url, http.MethodPost.
  destruct (json_Marshal (buildPayload r)) as [body|err] eqn:Hm;
    [|apply stage_marshal; assumption].
  destruct (http_NewRequest_failure ctx "POST"
              (baseURL (client r) +:+ "/render")) as [err|] eqn:Hr;
    [eapply stage_request; eauto|].
  change (Request_Header_Set "Content-Type" "application/json"
            (http.mkRequest ctx "POST" (baseURL (client r) +:+ "/render")
                            ∅ (Some body)))
    with (post_request ctx r body).
  destruct (http_Client_Do (httpClient (client r)) (post_request ctx r body))
    as [resp|cause] eqn:Hdo; [|eapply stage_exchange; eauto].
  destruct (io_ReadAll (http.Body resp)) as [data [err|]] eqn:Hread;
    [eapply stage_read; eauto|].
  destruct (Z.eqb_spec (http.StatusCode resp) http.StatusOK) as [Hs|Hs]; simpl.
  - eapply stage_done; eauto.
  - match goal with
    | |- Send_stage _ _ (_, Some (ServerError _ ?m)) =>
        replace m with (resolved_message (http.StatusCode resp) data)
    end.
    + eapply stage_status; eauto.
    + unfold resolved_message.
      destruct (json_Unmarshal_errResp data) as [msg|e]; [|reflexivity].
      destruct (String.eqb msg ""); reflexivity.
Qed.

Lemma resolved_message_nonempty (status : Z) (data : list Byte.byte) :
  resolved_message status data <> "".
Proof.
  assert (Hhttp : "HTTP " +:+ itoa status <> "").
  { intros H. apply (f_equal String.length) in H.
    rewrite length_append in H. simpl in H. lia. }
  unfold resolved_message.
  destruct (json_Unmarshal_errResp data) as [msg|e]; [|exact Hhttp].
  destruct (String.eqb_spec msg "") as [He|Hne]; [exact Hhttp|exact Hne].
Qed.

(** X7. [Send] returns bytes only for a response with status 200 whose
    body was read to its end; the bytes are the body as read and the
    error is nil. *)
Theorem Send_bytes_only_for_200 (ctx : context_Context) (r : RenderRequest)
    (data : list Byte.byte) (e : option error) :
  Send ctx r = (Some data, e) ->
  e = None /\
  exists body resp,
    json_Marshal (buildPayload r) = Ok body /\
    http_Client_Do (httpClient (client r)) (post_request ctx r body) = Ok resp /\
    http.StatusCode resp = 200%Z /\
    io_ReadAll (http.Body resp) = (data, None).
Proof.
  intros H. pose proof (Send_ends_at_a_stage ctx r) as Hst.
  rewrite H in Hst. inversion Hst; subst. split; [reflexivity|]. eauto 10.
Qed.

(** X8. A [ServerError] returned by [Send] always stands for a response
    that was received and read in full: it carries the status of that
    response, which is never 200, and a message that is never empty; no
    bytes come with it. *)
Theorem Send_ServerError_origin (ctx : context_Context) (r : RenderRequest)
    (o : option (list Byte.byte)) (code : Z) (msg : string) :
  Send ctx r = (o, Some (ServerError code msg)) ->
  o = None /\ code <> 200%Z /\ msg <> "" /\
  exists body resp data,
    json_Marshal (buildPayload r) = Ok body /\
    http_Client_Do (httpClient (client r)) (post_request ctx r body) = Ok resp /\
    io_ReadAll (http.Body resp) = (data, None) /\
    http.StatusCode resp = code /\
    msg = resolved_message code data.
Proof.
  intros H. pose proof (Send_ends_at_a_stage ctx r) as Hst.
  rewrite H in Hst. inversion Hst; subst.
  split; [reflexivity|]. split; [assumption|].
  split; [apply resolved_message_nonempty|]. eauto 10.
Qed.

(** X9. A [ConnectionError] returned by [Send] always stands for a failed
    exchange: the payload was encoded, the request was built, and the
    HTTP client failed on it with the very cause the error wraps. *)
Theorem Send_ConnectionError_origin (ctx : context_Context)
    (r : RenderRequest) (o : option (list Byte.byte)) (cause : error) :
  Send ctx r = (o, Some (ConnectionError cause)) ->
  o = None /\
  exists body,
    json_Marshal (buildPayload r) = Ok body /\
    http_NewRequest_failure ctx "POST" (baseURL (client r) +:+ "/render")
      = None /\
    http_Client_Do (httpClient (client r)) (post_request ctx r body)
      = Err cause.
Proof.
  intros H. pose proof (Send_ends_at_a_stage ctx r) as Hst.
  rewrite H in Hst. inversion Hst; subst. split; [reflexivity|]. eauto 10.
Qed.

(** X10. [Send] never returns both bytes and an error, nor neither; and
    the text of every error it returns starts with ["forge: "]. *)
Theorem Send_result_shape (ctx : context_Context) (r : RenderRequest) :
  (exists data, Send ctx r = (Some data, None)) \/
  (exists e, Send ctx r = (None, Some e) /\
             String.prefix "forge: " (Error e) = true).
Proof.
  destruct (Send_ends_at_a_stage ctx r); [right..|left]; eauto.
Qed.

(** X11. An error returned by [Send] that is not a [ServerError]
    unwraps to the failure of the stage that broke: the encoder's, the
    request builder's, the HTTP client's or the body reader's. A
    [ServerError] wraps nothing. *)
Theorem Send_error_unwraps (ctx : context_Context) (r : RenderRequest)
    (o : option (list Byte.byte)) (e : error) :
  Send ctx r = (o, Some e) ->
  match Unwrap e with
  | None => exists code msg, e = ServerError code msg
  | Some cause =>
      json_Marshal (buildPayload r) = Err cause \/
      http_NewRequest_failure ctx "POST" (baseURL (client r) +:+ "/render")
        = Some cause \/
      (exists body,
         http_Client_Do (httpClient (client r)) (post_request ctx r body)
           = Err cause) \/
      (exists body resp partial,
         http_Client_Do (httpClient (client r)) (post_request ctx r body)
           = Ok resp /\
         io_ReadAll (http.Body resp) = (partial, Some cause))
  end.
Proof.
  intros H. pose proof (Send_ends_at_a_stage ctx r) as Hst.
  rewrite H in Hst. inversion Hst; subst; simpl; eauto 10.
Qed.

(** ** The stages of [Health] *)

Inductive Health_stage (ctx : context_Context) (c : Client)
    : bool * option error -> Prop :=
| health_request (err : error) :
    http_NewRequest_failure ctx "GET" (baseURL c +:+ "/health") = Some err ->
    Health_stage ctx c (false, Some err)
| health_exchange (cause : error) :
    http_NewRequest_failure ctx "GET" (baseURL c +:+ "/health") = None ->
    http_Client_Do (httpClient c) (get_request ctx c) = Err cause ->
    Health_stage ctx c (false, Some (ConnectionError cause))
| health_answer (resp : http.Response) :
    http_NewRequest_failure ctx "GET" (baseURL c +:+ "/health") = None ->
    http_Client_Do (httpClient c) (get_request ctx c) = Ok resp ->
    Health_stage ctx c ((http.StatusCode resp =? 200)%Z, None).

(** X12. Every call of [Health] ends at one of three stages: the request
    could not be built, and the builder's failure is returned as it is,
    not wrapped; the exchange failed, and its cause is returned in a
    [ConnectionError]; or a response came, and the verdict is whether its
    status is 200, with no error. The request is a GET to the base
    address followed by /health, without header or body. *)
Theorem Health_ends_at_a_stage (ctx : context_Context) (c : Client) :
  Health_stage ctx c (Health ctx c).
Proof.
  unfold Health, http_NewRequestWithContext, health_url, http.MethodGet.
  destruct (http_NewRequest_failure ctx "GET" (baseURL c +:+ "/health"))
    as [err|] eqn:Hr; [apply health_request; assumption|].
  change (http.mkRequest ctx "GET" (baseURL c +:+ "/health") ∅ None)
    with (get_request ctx c).
  destruct (http_Client_Do (httpClient c) (get_request ctx c))
    as [resp|cause] eqn:Hdo.
  - apply health_answer; assumption.
  - apply health_exchange; assumption.
Qed.

(** X13. [Health] answers true only for a response with status 200, and
    then without an error. *)
Theorem Health_true_only_for_200 (ctx : context_Context) (c : Client)
    (e : option error) :
  Health ctx c = (true, e) ->
  e = None /\
  exists resp,
    http_Client_Do (httpClient c) (get_request ctx c) = Ok resp /\
    http.StatusCode resp = 200%Z.
Proof.
  intros H. pose proof (Health_ends_at_a_stage ctx c) as Hst.
  rewrite H in Hst. inversion Hst as [| |resp Hr Hdo [Hs He]].
  split; [reflexivity|]. exists resp. split; [exact Hdo|].
  apply Z.eqb_eq. exact Hs.
Qed.

(** ** Options of [NewClient] *)



(** ** More on the base address *)

(** X15. Normalising a base address twice is normalising it once, and a
    base address is kept as it is exactly when it has no trailing
    separator; the result is never longer than the address given. *)
Theorem normalisation_is_idempotent (base : string) :
  strip_trailing_slashes (strip_trailing_slashes base) =
    strip_trailing_slashes base /\
  (strip_trailing_slashes base = base <-> has_trailing_slash base = false) /\
  String.length (strip_trailing_slashes base) <= String.length base.
Proof.
  destruct (strip_trailing_slashes_spec base) as [Hno [n Hn]].
  split; [|split].
  - rewrite (strip_trailing_slashes_step (strip_trailing_slashes base)), Hno.
    reflexivity.
  - split.
    + intros Heq. rewrite <- Heq. exact Hno.
    + intros H. rewrite strip_trailing_slashes_step, H. reflexivity.
  - rewrite Hn at 2. rewrite length_append. lia.
Qed.

(** X16. A base address that is empty or made of separators only
    normalises to the empty string: the requests then go to the bare
    paths /render and /health. *)
Theorem separators_only_base_address (n : nat) (opts : list Option) :
  Forall keeps_baseURL opts ->
  let c := NewClient (slashes n) opts in
  baseURL c = "" /\ render_url c = "/render" /\ health_url c = "/health".
Proof.
  intros Hopts c.
  assert (Hc : baseURL c = "").
  { unfold c. rewrite NewClient_baseURL by assumption.
    change (slashes n) with ("" +:+ slashes n).
    rewrite strip_trailing_slashes_slashes. reflexivity. }
  unfold render_url, health_url. rewrite Hc. repeat split.
Qed.

End Outcomes.

Section Entries.

Context `{rt : GoRuntime}.

Lemma array_value_snoc {A : Type} (body : A -> gmap string value)
    (l : list A) (x : A) :
  array_value body (l ++ [x]) = Some (VObjects ((body <$> l) ++ [body x])).
Proof.
  unfold array_value. rewrite length_app, fmap_app. simpl.
  replace (0 <? length l + 1)%nat with true; [reflexivity|].
  symmetry. apply Nat.ltb_lt. lia.
Qed.

(** X17. [PdfBarcode] adds, after the barcodes the request already has,
    an object with the two members [type] and [data] and nothing else;
    [PdfAttach] without options adds, after the files already attached,
    an object with the two members [path] and [data] and nothing else.
    Either call alone makes the pdf group present. *)
Theorem bare_entries_have_two_members (r : RenderRequest)
    (barcodeType data path : string) :
  nested "pdf" "barcodes" (buildPayload (PdfBarcode barcodeType data r)) =
    Some (VObjects ((barcode_entry <$> pdfBarcodes r) ++
                    [ {[ "type" := VString barcodeType;
                         "data" := VString data ]} ])) /\
  nested "pdf" "embedded_files" (buildPayload (PdfAttach path data [] r)) =
    Some (VObjects ((embedded_file_entry <$> pdfEmbeddedFiles r) ++
                    [ {[ "path" := VString path;
                         "data" := VString data ]} ])).
Proof.
  split.
  - rewrite (nested_pdf_member _ "barcodes"
               (array_value barcode_entry
                  (pdfBarcodes (PdfBarcode barcodeType data r))))
      by (unfold pdf_own_members; solve_elem_of).
    simpl pdfBarcodes. rewrite array_value_snoc.
    do 3 f_equal; try (vm_compute; reflexivity).
  - rewrite (nested_pdf_member _ "embedded_files"
               (array_value embedded_file_entry
                  (pdfEmbeddedFiles (PdfAttach path data [] r))))
      by (unfold pdf_own_members; solve_elem_of).
    simpl pdfEmbeddedFiles. rewrite array_value_snoc.
    do 3 f_equal; try (vm_compute; reflexivity).
Qed.

End Entries.

(** * The further theorems at work on the test double *)

(** A width and a title, in either order. *)
Lemma calls_on_different_fields_commute_witness :
  let r0 := RenderHTML (NewClient "http://localhost:3000" []) "<p>test</p>" in
  slot (CWidth 800) <> slot (CPdfTitle "Report") /\
  chain ([CFormat "png"] ++ CWidth 800 :: CPdfTitle "Report" :: []) r0 =
  chain ([CFormat "png"] ++ CPdfTitle "Report" :: CWidth 800 :: []) r0.
Proof.
  intros r0.
  assert (H : slot (CWidth 800) <> slot (CPdfTitle "Report")) by discriminate.
  split; [exact H|].
  exact (proj1 (calls_on_different_fields_commute r0 [CFormat "png"] []
                  (CWidth 800) (CPdfTitle "Report") H)).
Defined.

(** A paper size set three times. *)
Lemma overwritten_call_is_dead_witness :
  let r0 := RenderHTML (NewClient "http://localhost:3000" []) "<p>test</p>" in
  slot (CPaper "a4") = slot (CPaper "a3") /\
  appends (CPaper "a3") = false /\
  chain ([] ++ CPaper "a4" :: [CWidth 800; CPaper "letter"] ++
         CPaper "a3" :: [CHeight 600]) r0 =
  chain ([] ++ [CWidth 800; CPaper "letter"] ++
         CPaper "a3" :: [CHeight 600]) r0.
Proof.
  intros r0.
  assert (H1 : slot (CPaper "a4") = slot (CPaper "a3")) by reflexivity.
  assert (H2 : appends (CPaper "a3") = false) by reflexivity.
  split; [exact H1|]. split; [exact H2|].
  exact (overwritten_call_is_dead r0 [] [CWidth 800; CPaper "letter"]
           [CHeight 600] (CPaper "a4") (CPaper "a3") H1 H2).
Defined.

(** A rendered document comes back. *)
Lemma Send_bytes_only_for_200_witness :
  let pdf := list_byte_of_string "%PDF-1.7" in
  let r := test_request (Ok (response 200 pdf None)) in
  Send tt r = (Some pdf, None) /\
  (@None error = None /\
   exists body resp,
     json_Marshal (buildPayload r) = Ok body /\
     http_Client_Do (httpClient (client r)) (post_request tt r body) = Ok resp /\
     http.StatusCode resp = 200%Z /\
     io_ReadAll (http.Body resp) = (pdf, None)).
Proof.
  intros pdf r.
  assert (H : Send tt r = (Some pdf, None)) by (vm_compute; reflexivity).
  split; [exact H|].
  exact (Send_bytes_only_for_200 (rt := test_runtime) tt r pdf None H).
Defined.

(** The server refuses the paper size. *)
Lemma Send_ServerError_origin_witness :
  let r := test_request (Ok (response 422 (error_body "bad paper size") None)) in
  Send tt r = (None, Some (ServerError 422 "bad paper size")) /\
  (@None (list Byte.byte) = None /\ 422%Z <> 200%Z /\ "bad paper size" <> "" /\
   exists body resp data,
     json_Marshal (buildPayload r) = Ok body /\
     http_Client_Do (httpClient (client r)) (post_request tt r body) = Ok resp /\
     io_ReadAll (http.Body resp) = (data, None) /\
     http.StatusCode resp = 422%Z /\
     "bad paper size" = resolved_message 422 data).
Proof.
  intros r.
  assert (H : Send tt r = (None, Some (ServerError 422 "bad paper size")))
    by (vm_compute; reflexivity).
  split; [exact H|].
  exact (Send_ServerError_origin (rt := test_runtime) tt r None 422
           "bad paper size" H).
Defined.

(** Nobody listens on the port. *)
Lemma Send_ConnectionError_origin_witness :
  let refused := ForeignError "dial tcp 127.0.0.1:3000: connection refused" in
  let r := test_request (Err refused) in
  Send tt r = (None, Some (ConnectionError refused)) /\
  (@None (list Byte.byte) = None /\
   exists body,
     json_Marshal (buildPayload r) = Ok body /\
     http_NewRequest_failure tt "POST" (baseURL (client r) +:+ "/render")
       = None /\
     http_Client_Do (httpClient (client r)) (post_request tt r body)
       = Err refused).
Proof.
  intros refused r.
  assert (H : Send tt r = (None, Some (ConnectionError refused)))
    by (vm_compute; reflexivity).
  split; [exact H|].
  exact (Send_ConnectionError_origin (rt := test_runtime) tt r None refused H).
Defined.

(** The body breaks off: the error unwraps to the reader's failure. *)
Lemma Send_error_unwraps_witness :
  let eof := ForeignError "unexpected EOF" in
  let r := test_request (Ok (response 200 (list_byte_of_string "%PDF") (Some eof))) in
  Send tt r = (None, Some (Errorf_w "forge: read body" eof)) /\
  (json_Marshal (buildPayload r) = Err eof \/
   http_NewRequest_failure tt "POST" (baseURL (client r) +:+ "/render")
     = Some eof \/
   (exists body,
      http_Client_Do (httpClient (client r)) (post_request tt r body)
        = Err eof) \/
   (exists body resp partial,
      http_Client_Do (httpClient (client r)) (post_request tt r body)
        = Ok resp /\
      io_ReadAll (http.Body resp) = (partial, Some eof))).
Proof.
  intros eof r.
  assert (H : Send tt r = (None, Some (Errorf_w "forge: read body" eof)))
    by (vm_compute; reflexivity).
  split; [exact H|].
  exact (Send_error_unwraps (rt := test_runtime) tt r None
           (Errorf_w "forge: read body" eof) H).
Defined.

(** A healthy server. *)
Lemma Health_true_only_for_200_witness :
  let c := test_client "http://host:3000/" (Ok (response 200 [] None)) in
  Health tt c = (true, None) /\
  (@None error = None /\
   exists resp,
     http_Client_Do (httpClient c) (get_request tt c) = Ok resp /\
     http.StatusCode resp = 200%Z).
Proof.
  intros c.
  assert (H : Health tt c = (true, None)) by (vm_compute; reflexivity).
  split; [exact H|].
  exact (Health_true_only_for_200 (rt := test_runtime) tt c None H).
Defined.

(** A base address of three separators. *)
Lemma separators_only_base_address_witness :
  let opts := [WithTimeout (5 * time_Second)] in
  Forall keeps_baseURL opts /\
  baseURL (NewClient "///" opts) = "" /\
  render_url (NewClient "///" opts) = "/render" /\
  health_url (NewClient "///" opts) = "/health".
Proof.
  intros opts.
  assert (H : Forall keeps_baseURL opts).
  { repeat constructor. }
  split; [exact H|].
  exact (separators_only_base_address 3 opts H).
Defined.

(** * The first version of the builder

    [forge.go] also holds the first version of the request, with the
    layout, quantize and six pdf metadata fields only, and its
    [buildPayload]. *)

Module v1.

Section Forge.

Context `{rt : GoRuntime}.

Record RenderRequest : Type := mkRenderRequest {
  client : Client;
  html : option string;
  url : option string;
  format : string;
  width : option Z;
  height : option Z;
  paper : option string;
  orientation : option string;
  margins : option string;
  flow : option string;
  density : option float64;
  background : option string;
  timeout : option Z;
  colors : option Z;
  palette : option value;
  dither : option string;
  pdfTitle : option string;
  pdfAuthor : option string;
  pdfSubject : option string;
  pdfKeywords : option string;
  pdfCreator : option string;
  pdfBookmarks : option bool
}.

(** [buildPayload] builds the JSON payload map. *)
Definition buildPayload (r : RenderRequest) : gmap string value :=
  let p : gmap string value := ∅ in
  let p := put "html" VString (html r) p in
  let p := put "url" VString (url r) p in
  let format' := format r in
  let format' := if String.eqb format' "" then "pdf" else format' in
  let p := <["format" := VString format']> p in
  let p := put "width" VInt (width r) p in
  let p := put "height" VInt (height r) p in
  let p := put "paper" VString (paper r) p in
  let p := put "orientation" VString (orientation r) p in
  let p := put "margins" VString (margins r) p in
  let p := put "flow" VString (flow r) p in
  let p := put "density" VFloat (density r) p in
  let p := put "background" VString (background r) p in
  let p := put "timeout" VInt (timeout r) p in
  let p :=
    if non_nil (colors r) || non_nil (palette r) || non_nil (dither r) then
      let q : gmap string value := ∅ in
      let q := put "colors" VInt (colors r) q in
      let q := put "palette" id (palette r) q in
      let q := put "dither" VString (dither r) q in
      <["quantize" := VObject q]> p
    else p in
  let p :=
    if non_nil (pdfTitle r) || non_nil (pdfAuthor r) ||
       non_nil (pdfSubject r) || non_nil (pdfKeywords r) ||
       non_nil (pdfCreator r) || non_nil (pdfBookmarks r)
    then
      let pdf : gmap string value := ∅ in
      let pdf := put "title" VString (pdfTitle r) pdf in
      let pdf := put "author" VString (pdfAuthor r) pdf in
      let pdf := put "subject" VString (pdfSubject r) pdf in
      let pdf := put "keywords" VString (pdfKeywords r) pdf in
      let pdf := put "creator" VString (pdfCreator r) pdf in
      let pdf := put "bookmarks" VBool (pdfBookmarks r) pdf in
      <["pdf" := VObject pdf]> p
    else p in
  p.

End Forge.

End v1.

Section Versions.

Context `{rt : GoRuntime}.

(** A request of the first version, as the current version holds it:
    the fields that came later are nil. *)
Definition upgrade (r : v1.RenderRequest) : RenderRequest :=
  {| client := v1.client r; html := v1.html r; url := v1.url r;
     format := v1.format r; width := v1.width r; height := v1.height r;
     paper := v1.paper r; orientation := v1.orientation r;
     margins := v1.margins r; flow := v1.flow r; density := v1.density r;
     background := v1.background r; timeout := v1.timeout r;
     colors := v1.colors r; palette := v1.palette r; dither := v1.dither r;
     pdfTitle := v1.pdfTitle r; pdfAuthor := v1.pdfAuthor r;
     pdfSubject := v1.pdfSubject r; pdfKeywords := v1.pdfKeywords r;
     pdfCreator := v1.pdfCreator r; pdfBookmarks := v1.pdfBookmarks r;
     pdfPageNumbers := None; pdfWatermarkText := None;
     pdfWatermarkImage := None; pdfWatermarkOpacity := None;
     pdfWatermarkRotation := None; pdfWatermarkColor := None;
     pdfWatermarkFontSize := None; pdfWatermarkScale := None;
     pdfWatermarkLayer := None; pdfWatermarkPages := None;
     pdfStandard := None; pdfEmbeddedFiles := []; pdfBarcodes := [];
     pdfMode := None; pdfSignCertificate := None; pdfSignPassword := None;
     pdfSignName := None; pdfSignReason := None; pdfSignLocation := None;
     pdfSignTimestampUrl := None; pdfUserPassword := None;
     pdfOwnerPassword := None; pdfPermissions := None;
     pdfAccessibility := None; pdfLinearize := None |}.

(** X18. The current [buildPayload] agrees with the first version's on
    every request of the first version: the fields added since, left
    nil, add no key and no group, and make the pdf group appear in no
    case where it did not. *)
Theorem payload_unchanged_since_v1 (r : v1.RenderRequest) :
  buildPayload (upgrade r) = v1.buildPayload r.
Proof.
  unfold buildPayload, v1.buildPayload. cbv zeta.
  cbn [upgrade client html url format width height paper orientation margins
       flow density background timeout colors palette dither pdfTitle
       pdfAuthor pdfSubject pdfKeywords pdfCreator pdfBookmarks
       pdfPageNumbers pdfWatermarkText pdfWatermarkImage pdfWatermarkOpacity
       pdfWatermarkRotation pdfWatermarkColor pdfWatermarkFontSize
       pdfWatermarkScale pdfWatermarkLayer pdfWatermarkPages pdfStandard
       pdfEmbeddedFiles pdfBarcodes pdfMode pdfSignCertificate
       pdfSignPassword pdfSignName pdfSignReason pdfSignLocation
       pdfSignTimestampUrl pdfUserPassword pdfOwnerPassword pdfPermissions
       pdfAccessibility pdfLinearize non_nil put orb length Nat.ltb Nat.leb].
  rewrite !orb_false_r. reflexivity.
Qed.

End Versions.

Section Presence.

Context `{rt : GoRuntime}.

(** ** Groups and the calls that make them appear *)

Definition quantize_slots : list string := ["colors"; "palette"; "dither"].

Definition watermark_slots : list string :=
  ["pdfWatermarkText"; "pdfWatermarkImage"; "pdfWatermarkOpacity";
   "pdfWatermarkRotation"; "pdfWatermarkColor"; "pdfWatermarkFontSize";
   "pdfWatermarkScale"; "pdfWatermarkLayer"; "pdfWatermarkPages"].

Definition signature_slots : list string :=
  ["pdfSignCertificate"; "pdfSignPassword"; "pdfSignName"; "pdfSignReason";
   "pdfSignLocation"; "pdfSignTimestampUrl"].

Definition encryption_slots : list string :=
  ["pdfUserPassword"; "pdfOwnerPassword"; "pdfPermissions"].

Definition pdf_slots : list string :=
  ["pdfTitle"; "pdfAuthor"; "pdfSubject"; "pdfKeywords"; "pdfCreator";
   "pdfBookmarks"; "pdfPageNumbers"; "pdfStandard"; "pdfEmbeddedFiles";
   "pdfBarcodes"; "pdfMode"; "pdfAccessibility"; "pdfLinearize"] ++
  watermark_slots ++ signature_slots ++ encryption_slots.

(** The call writes a field of the group. *)
Definition touches (slots : list string) (c : Call) : bool :=
  bool_decide (slot c ∈ slots).

Ltac has_after_call c :=
  destruct c;
  match goal with
  | |- _ = _ || ?t => let b := eval vm_compute in t in change t with b
  end;
  cbn [call];
  unfold Format, Width, Height, Paper, Orientation, Margins, Flow, Density,
    Background, Timeout, Colors, Palette, CustomPalette, Dither, PdfTitle,
    PdfAuthor, PdfSubject, PdfKeywords, PdfCreator, PdfBookmarks,
    PdfPageNumbers, PdfWatermarkText, PdfWatermarkImage, PdfWatermarkOpacity,
    PdfWatermarkRotation, PdfWatermarkColor, PdfWatermarkFontSize,
    PdfWatermarkScale, PdfWatermarkLayer, PdfStandard, PdfAttach,
    PdfWatermarkPages, PdfBarcode, PdfBarcodeWith, PdfMode,
    PdfSignCertificate, PdfSignPassword, PdfSignName, PdfSignReason,
    PdfSignLocation, PdfSignTimestampUrl, PdfUserPassword, PdfOwnerPassword,
    PdfPermissions, PdfAccessibility, PdfLinearize;
  cbn [colors palette dither pdfTitle pdfAuthor pdfSubject pdfKeywords
       pdfCreator pdfBookmarks pdfPageNumbers pdfWatermarkText
       pdfWatermarkImage pdfWatermarkOpacity pdfWatermarkRotation
       pdfWatermarkColor pdfWatermarkFontSize pdfWatermarkScale
       pdfWatermarkLayer pdfWatermarkPages pdfStandard pdfEmbeddedFiles
       pdfBarcodes pdfMode pdfSignCertificate pdfSignPassword pdfSignName
       pdfSignReason pdfSignLocation pdfSignTimestampUrl pdfUserPassword
       pdfOwnerPassword pdfPermissions pdfAccessibility pdfLinearize non_nil];
  rewrite ?length_app, ?Nat.add_1_r; cbn [length Nat.ltb Nat.leb];
  repeat (rewrite ?orb_true_r, ?orb_false_r; cbn [orb]);
  reflexivity.

Lemma hasQuantize_call (c : Call) (r : RenderRequest) :
  hasQuantize (call c r) = hasQuantize r || touches quantize_slots c.
Proof. unfold hasQuantize. has_after_call c. Qed.

Lemma hasWatermark_call (c : Call) (r : RenderRequest) :
  hasWatermark (call c r) = hasWatermark r || touches watermark_slots c.
Proof. unfold hasWatermark. has_after_call c. Qed.

Lemma hasSignature_call (c : Call) (r : RenderRequest) :
  hasSignature (call c r) = hasSignature r || touches signature_slots c.
Proof. unfold hasSignature. has_after_call c. Qed.

Lemma hasEncryption_call (c : Call) (r : RenderRequest) :
  hasEncryption (call c r) = hasEncryption r || touches encryption_slots c.
Proof. unfold hasEncryption. has_after_call c. Qed.

Lemma hasPdf_call (c : Call) (r : RenderRequest) :
  hasPdf (call c r) = hasPdf r || touches pdf_slots c.
Proof.
  unfold hasPdf, hasWatermark, hasSignature, hasEncryption. has_after_call c.
Qed.

Lemma has_chain (has : RenderRequest -> bool) (slots : list string) :
  (forall c r, has (call c r) = has r || touches slots c) ->
  forall cs r, has (chain cs r) = has r || existsb (touches slots) cs.
Proof.
  intros Hcall cs. induction cs as [|c cs IH]; intros r.
  - simpl. rewrite orb_false_r. reflexivity.
  - rewrite chain_cons, IH, Hcall. simpl. rewrite orb_assoc. reflexivity.
Qed.

Lemma existsb_touches (slots : list string) (cs : list Call) :
  existsb (touches slots) cs = true <->
  Exists (fun c => slot c ∈ slots) cs.
Proof.
  induction cs as [|c cs IH]; simpl.
  - split; [discriminate|]. intros H. inversion H.
  - rewrite orb_true_iff, IH, Exists_cons. unfold touches.
    rewrite bool_decide_eq_true. reflexivity.
Qed.

Lemma is_Some_group_value (cond : bool) (ms : members) :
  is_Some (group_value cond ms) <-> cond = true.
Proof.
  unfold group_value. destruct cond; split; eauto; try discriminate.
  intros [? ?]. discriminate.
Qed.

Lemma nested_pdf_group (r : RenderRequest) (k : string) (cond : bool)
    (ms : members) :
  (k, group_value cond ms) ∈ pdf_entries r ->
  (cond = true -> hasPdf r = true) ->
  is_Some (nested "pdf" k (buildPayload r)) <-> cond = true.
Proof.
  intros Hin Himp. unfold nested. rewrite buildPayload_pdf.
  unfold group_value at 1. destruct (hasPdf r) eqn:Hp.
  - rewrite (collect_member _ _ _ (pdf_entries_NoDup r) Hin).
    apply is_Some_group_value.
  - split.
    + intros [? ?]. discriminate.
    + intros Hc. specialize (Himp Hc). discriminate.
Qed.

Lemma group_implies_pdf (r : RenderRequest) :
  (hasWatermark r = true -> hasPdf r = true) /\
  (hasSignature r = true -> hasPdf r = true) /\
  (hasEncryption r = true -> hasPdf r = true).
Proof.
  rewrite hasWatermark_any_set, hasSignature_any_set, hasEncryption_any_set,
          hasPdf_any_set.
  unfold pdf_fields. rewrite !any_set_app. tauto.
Qed.

Lemma presence_after_chain (has : RenderRequest -> bool) (slots : list string)
    (P : RenderRequest -> Prop) :
  (forall r, P r <-> has r = true) ->
  (forall c r, has (call c r) = has r || touches slots c) ->
  forall cs r,
    P (chain cs r) <-> P r \/ Exists (fun c => slot c ∈ slots) cs.
Proof.
  intros HP Hcall cs r.
  rewrite !HP, (has_chain has slots Hcall), orb_true_iff, existsb_touches.
  reflexivity.
Qed.

(** X19. A group is present after a chain of calls exactly when it was
    present before or the chain holds a call that writes one of its
    fields. So no call ever makes a group disappear, and calls on fields
    outside a group never make it appear. This holds for the quantize
    and pdf groups and for the watermark, signature and encryption groups
    inside the pdf group. *)
Theorem group_presence_after_calls (r : RenderRequest) (cs : list Call) :
  let p := buildPayload r in
  let p' := buildPayload (chain cs r) in
  (is_Some (p' !! "quantize") <->
   is_Some (p !! "quantize") \/ Exists (fun c => slot c ∈ quantize_slots) cs) /\
  (is_Some (p' !! "pdf") <->
   is_Some (p !! "pdf") \/ Exists (fun c => slot c ∈ pdf_slots) cs) /\
  (is_Some (nested "pdf" "watermark" p') <->
   is_Some (nested "pdf" "watermark" p) \/
   Exists (fun c => slot c ∈ watermark_slots) cs) /\
  (is_Some (nested "pdf" "signature" p') <->
   is_Some (nested "pdf" "signature" p) \/
   Exists (fun c => slot c ∈ signature_slots) cs) /\
  (is_Some (nested "pdf" "encryption" p') <->
   is_Some (nested "pdf" "encryption" p) \/
   Exists (fun c => slot c ∈ encryption_slots) cs).
Proof.
  intros p p'. subst p p'. split; [|split; [|split; [|split]]].
  - apply (presence_after_chain hasQuantize quantize_slots
             (fun r => is_Some (buildPayload r !! "quantize"))).
    + intros r'. rewrite buildPayload_quantize. apply is_Some_group_value.
    + apply hasQuantize_call.
  - apply (presence_after_chain hasPdf pdf_slots
             (fun r => is_Some (buildPayload r !! "pdf"))).
    + intros r'. rewrite buildPayload_pdf. apply is_Some_group_value.
    + apply hasPdf_call.
  - apply (presence_after_chain hasWatermark watermark_slots
             (fun r => is_Some (nested "pdf" "watermark" (buildPayload r)))).
    + intros r'. apply (nested_pdf_group r' _ _ (watermark_members r')).
      * unfold pdf_entries. solve_elem_of.
      * apply group_implies_pdf.
    + apply hasWatermark_call.
  - apply (presence_after_chain hasSignature signature_slots
             (fun r => is_Some (nested "pdf" "signature" (buildPayload r)))).
    + intros r'. apply (nested_pdf_group r' _ _ (signature_members r')).
      * unfold pdf_entries. solve_elem_of.
      * apply group_implies_pdf.
    + apply hasSignature_call.
  - apply (presence_after_chain hasEncryption encryption_slots
             (fun r => is_Some (nested "pdf" "encryption" (buildPayload r)))).
    + intros r'. apply (nested_pdf_group r' _ _ (encryption_members r')).
      * unfold pdf_entries. solve_elem_of.
      * apply group_implies_pdf.
    + apply hasEncryption_call.
Qed.

(** X20. On a request fresh from a factory, a group is present in the
    payload exactly when the caller made at least one call that writes a
    field of that group. *)
Theorem group_present_iff_called (start : RenderRequest) (cs : list Call) :
  fresh start ->
  let p := buildPayload (chain cs start) in
  (is_Some (p !! "quantize") <->
   Exists (fun c => slot c ∈ quantize_slots) cs) /\
  (is_Some (p !! "pdf") <-> Exists (fun c => slot c ∈ pdf_slots) cs) /\
  (is_Some (nested "pdf" "watermark" p) <->
   Exists (fun c => slot c ∈ watermark_slots) cs) /\
  (is_Some (nested "pdf" "signature" p) <->
   Exists (fun c => slot c ∈ signature_slots) cs) /\
  (is_Some (nested "pdf" "encryption" p) <->
   Exists (fun c => slot c ∈ encryption_slots) cs).
Proof.
  intros Hfresh p. subst p.
  assert (Hnone : forall k : string, ~ is_Some (@None value)).
  { intros _ [? ?]. discriminate. }
  destruct (group_presence_after_calls start cs) as (Hq & Hp & Hw & Hs & He).
  destruct Hfresh as (c & src & [-> | ->]).
  - change (buildPayload (RenderHTML c src) !! "quantize") with (@None value) in Hq.
    change (buildPayload (RenderHTML c src) !! "pdf") with (@None value) in Hp.
    change (nested "pdf" "watermark" (buildPayload (RenderHTML c src)))
      with (@None value) in Hw.
    change (nested "pdf" "signature" (buildPayload (RenderHTML c src)))
      with (@None value) in Hs.
    change (nested "pdf" "encryption" (buildPayload (RenderHTML c src)))
      with (@None value) in He.
    specialize (Hnone ""). tauto.
  - change (buildPayload (RenderURL c src) !! "quantize") with (@None value) in Hq.
    change (buildPayload (RenderURL c src) !! "pdf") with (@None value) in Hp.
    change (nested "pdf" "watermark" (buildPayload (RenderURL c src)))
      with (@None value) in Hw.
    change (nested "pdf" "signature" (buildPayload (RenderURL c src)))
      with (@None value) in Hs.
    change (nested "pdf" "encryption" (buildPayload (RenderURL c src)))
      with (@None value) in He.
    specialize (Hnone ""). tauto.
Qed.

End Presence.

(** A width and a dithering method: the quantize group and no other. *)
Lemma group_present_iff_called_witness :
  let start := RenderHTML (NewClient "http://localhost:3000" []) "<p>test</p>" in
  let cs := [CWidth 800; CDither types.DitherAtkinson] in
  let p := buildPayload (chain cs start) in
  fresh start /\
  ((is_Some (p !! "quantize") <->
    Exists (fun c => slot c ∈ quantize_slots) cs) /\
   (is_Some (p !! "pdf") <-> Exists (fun c => slot c ∈ pdf_slots) cs) /\
   (is_Some (nested "pdf" "watermark" p) <->
    Exists (fun c => slot c ∈ watermark_slots) cs) /\
   (is_Some (nested "pdf" "signature" p) <->
    Exists (fun c => slot c ∈ signature_slots) cs) /\
   (is_Some (nested "pdf" "encryption" p) <->
    Exists (fun c => slot c ∈ encryption_slots) cs)).
Proof.
  intros start cs p.
  assert (H : fresh start).
  { eexists _, _. left. reflexivity. }
  split; [exact H|].
  exact (group_present_iff_called start cs H).
Defined.
